(** * gum/backend-elf/gumelfmodule.c: a shallow embedding

    The ELF introspector of frida-gum, embedded function by function.
    Fixed-width C integers are [Z] with the wrap-around written out,
    pointers are [Z] truncated to the host's pointer width, the process
    memory is a byte map read little-endian, and libelf's handle is a
    record of the tables its accessors return.  A callback
    [gboolean f (details, user_data)] becomes a function
    [details -> U -> bool * U]: the verdict and the updated user data. *)

From Stdlib Require Import ZArith List Bool Ascii String Lia.
Import ListNotations.
Local Open Scope Z_scope.

(** ** Machine integers *)

Definition to_guchar (x : Z) : Z := x mod 2 ^ 8.
Definition to_guint16 (x : Z) : Z := x mod 2 ^ 16.
Definition to_guint32 (x : Z) : Z := x mod 2 ^ 32.
Definition to_guint64 (x : Z) : Z := x mod 2 ^ 64.

Definition is_guint64 (x : Z) : Prop := 0 <= x < 2 ^ 64.

(** Reinterpretation of an unsigned [bits]-wide value as two's complement. *)
Definition to_signed (bits x : Z) : Z :=
  if x <? 2 ^ (bits - 1) then x else x - 2 ^ bits.

(** [sizeof (gpointer)]: the source compiles one of two decoders. *)
Inductive PointerSize : Set := Ptr32 | Ptr64.

Definition sizeof_gpointer (host : PointerSize) : Z :=
  match host with Ptr32 => 4 | Ptr64 => 8 end.

Definition to_gsize (host : PointerSize) (x : Z) : Z :=
  x mod 2 ^ (8 * sizeof_gpointer host).

Definition GSIZE_TO_POINTER (host : PointerSize) (x : Z) : Z := to_gsize host x.

(** [p + n] on a byte pointer. *)
Definition pointer_add (host : PointerSize) (p n : Z) : Z := to_gsize host (p + n).

Definition NULL : Z := 0.

(** ** Constants of <elf.h> and <gelf.h> *)

Definition ET_REL : Z := 1.
Definition ET_EXEC : Z := 2.
Definition ET_DYN : Z := 3.
Definition ET_CORE : Z := 4.

Definition PT_NULL : Z := 0.
Definition PT_LOAD : Z := 1.
Definition PT_DYNAMIC : Z := 2.
Definition PT_GNU_STACK : Z := 0x6474e551.

Definition DT_NULL : Z := 0.
Definition DT_NEEDED : Z := 1.
Definition DT_HASH : Z := 4.
Definition DT_STRTAB : Z := 5.
Definition DT_SYMTAB : Z := 6.
Definition DT_SYMENT : Z := 11.

Definition SHT_SYMTAB : Z := 2.
Definition SHN_UNDEF : Z := 0.

Definition STT_OBJECT : Z := 1.
Definition STT_FUNC : Z := 2.

Definition STB_LOCAL : Z := 0.
Definition STB_GLOBAL : Z := 1.
Definition STB_WEAK : Z := 2.

Definition GELF_ST_BIND (val : Z) : Z := Z.shiftr (to_guchar val) 4.
Definition GELF_ST_TYPE (val : Z) : Z := Z.land val 0xf.

Definition sizeof_Elf32_Dyn : Z := 8.
Definition sizeof_Elf64_Dyn : Z := 16.

(** ** libelf's view of a parsed file *)

Record GElf_Ehdr : Type := {
  e_type : Z;
  e_phnum : Z
}.

Record GElf_Phdr : Type := {
  p_type : Z;
  p_offset : Z;
  p_vaddr : Z;
  p_memsz : Z
}.

Record GElf_Shdr : Type := {
  sh_type : Z;
  sh_link : Z;
  sh_size : Z;
  sh_entsize : Z
}.

Record GElf_Sym : Type := {
  st_name : Z;
  st_info : Z;
  st_shndx : Z;
  st_value : Z
}.

(** A section as [elf_nextscn] hands it out: its header and, for
    [gelf_getsym], the entry its data holds at each index. *)
Record Elf_Scn : Type := {
  scn_shdr : GElf_Shdr;
  scn_sym : Z -> GElf_Sym
}.

(** The handle returned by [elf_memory].  [elf_phdr] is what
    [gelf_getphdr] stores for an index, [elf_scns] the sections in the
    order [elf_nextscn] walks them, [elf_str] the pointer [elf_strptr]
    returns for a string-table section index and an offset. *)
Record Elf : Type := {
  elf_ehdr : GElf_Ehdr;
  elf_phdr : Z -> GElf_Phdr;
  elf_scns : list Elf_Scn;
  elf_str : Z -> Z -> Z
}.

Definition gelf_getehdr (elf : Elf) : GElf_Ehdr := elf_ehdr elf.
Definition gelf_getphdr (elf : Elf) (ndx : Z) : GElf_Phdr := elf_phdr elf ndx.
Definition gelf_getshdr (scn : Elf_Scn) : GElf_Shdr := scn_shdr scn.
Definition elf_getdata (scn : Elf_Scn) : Z -> GElf_Sym := scn_sym scn.
Definition gelf_getsym (data : Z -> GElf_Sym) (ndx : Z) : GElf_Sym := data ndx.
Definition elf_strptr (elf : Elf) (section offset : Z) : Z := elf_str elf section offset.

(** ** Process memory *)

(** One byte per address; multi-byte loads are little-endian. *)
Definition Memory : Type := Z -> Z.

Definition load_u8 (mem : Memory) (p : Z) : Z := to_guchar (mem p).

Definition load_u16 (mem : Memory) (p : Z) : Z :=
  load_u8 mem p + 2 ^ 8 * load_u8 mem (p + 1).

Definition load_u32 (mem : Memory) (p : Z) : Z :=
  load_u16 mem p + 2 ^ 16 * load_u16 mem (p + 2).

Definition load_u64 (mem : Memory) (p : Z) : Z :=
  load_u32 mem p + 2 ^ 32 * load_u32 mem (p + 4).

Definition load_s32 (mem : Memory) (p : Z) : Z := to_signed 32 (load_u32 mem p).
Definition load_s64 (mem : Memory) (p : Z) : Z := to_signed 64 (load_u64 mem p).

(** ** gumelfmodule.h *)

Definition GumAddress : Type := Z.

Record GumElfModule : Type := {
  valid : bool;
  name : option string;
  path : string;
  file_data : option (list Z);
  file_size : Z;
  elf : option Elf;
  ehdr : option GElf_Ehdr;
  base_address : GumAddress;
  preferred_address : GumAddress
}.

Record GumElfDependencyDetails : Type := {
  dep_name : Z
}.

Record GumElfSymbolDetails : Type := {
  sym_name : Z;
  sym_address : GumAddress;
  sym_type : Z;
  sym_bind : Z;
  section_header_index : Z
}.

Record GumElfDynamicEntryDetails : Type := {
  dyn_type : Z;
  dyn_value : Z
}.

Record GumMemoryRange : Type := {
  range_base_address : GumAddress;
  range_size : Z
}.

(** ** Address translation *)

Definition gum_elf_module_resolve_virtual_address
  (self : GumElfModule) (address : GumAddress) : GumAddress :=
  to_guint64 (base_address self + to_guint64 (address - preferred_address self)).

(** ** Structural locators *)

(** The scans below read [self->ehdr->e_phnum] and [self->elf].  Both
    are null only in a module whose construction failed, which
    [gum_elf_module_new_from_memory] never hands out; there the source
    dereferences a null pointer, and the model ends the scan. *)

Section Host.

Variable host : PointerSize.
Variable mem : Memory.

(** [for (header_index = 0; header_index != header_count; header_index++)]
    with [remaining] iterations still to run. *)
Fixpoint find_dynamic_range_from (e : Elf) (remaining : nat) (header_index : Z)
  : option GumMemoryRange :=
  match remaining with
  | O => None
  | S remaining' =>
      let phdr := gelf_getphdr e header_index in
      if p_type phdr =? PT_DYNAMIC
      then Some {| range_base_address := p_vaddr phdr;
                   range_size := to_gsize host (p_memsz phdr) |}
      else find_dynamic_range_from e remaining' (to_guint16 (header_index + 1))
  end.

Definition gum_elf_module_find_dynamic_range (self : GumElfModule)
  : option GumMemoryRange :=
  match ehdr self, elf self with
  | Some h, Some e =>
      let header_count := to_guint16 (e_phnum h) in
      find_dynamic_range_from e (Z.to_nat header_count) 0
  | _, _ => None
  end.

(** [while ((cur = elf_nextscn (self->elf, cur)) != NULL)] *)
Fixpoint find_section_header_from (scns : list Elf_Scn) (type : Z)
  : option (Elf_Scn * GElf_Shdr) :=
  match scns with
  | [] => None
  | cur :: rest =>
      let shdr := gelf_getshdr cur in
      if sh_type shdr =? type then Some (cur, shdr)
      else find_section_header_from rest type
  end.

Definition gum_elf_module_find_section_header (self : GumElfModule) (type : Z)
  : option (Elf_Scn * GElf_Shdr) :=
  match elf self with
  | Some e => find_section_header_from (elf_scns e) type
  | None => None
  end.

Fixpoint compute_preferred_address_from (e : Elf) (remaining : nat) (header_index : Z)
  : GumAddress :=
  match remaining with
  | O => 0
  | S remaining' =>
      let phdr := gelf_getphdr e header_index in
      if p_offset phdr =? 0
      then p_vaddr phdr
      else compute_preferred_address_from e remaining' (to_guint16 (header_index + 1))
  end.

Definition gum_elf_module_compute_preferred_address (self : GumElfModule)
  : GumAddress :=
  match ehdr self, elf self with
  | Some h, Some e =>
      let header_count := to_guint16 (e_phnum h) in
      compute_preferred_address_from e (Z.to_nat header_count) 0
  | _, _ => 0
  end.

(** ** Entry enumerators *)

(** The shape shared by the callback loops of the source:
    [for (index = first; index != count; index++) { ...; if (!func (&d, user_data)) return; }]
    where [decode] builds the record [d] of the entry at [index], [wrap]
    is the width of the index variable and [remaining] the iterations
    left.  The loop of [gum_elf_module_enumerate_symbols_in_section]
    keeps the verdict in [carry_on] and tests it in the loop condition,
    which leaves after the same call. *)
Fixpoint enumerate_from {D C : Type} (wrap : Z -> Z) (decode : Z -> D)
  (func : D -> C -> bool * C) (remaining : nat) (index : Z) (user_data : C) : C :=
  match remaining with
  | O => user_data
  | S remaining' =>
      let (carry_on, user_data') := func (decode index) user_data in
      if carry_on
      then enumerate_from wrap decode func remaining' (wrap (index + 1)) user_data'
      else user_data'
  end.

Definition read_Elf32_Dyn (entries entry_index : Z) : GumElfDynamicEntryDetails :=
  let entry := pointer_add host entries (entry_index * sizeof_Elf32_Dyn) in
  {| dyn_type := load_s32 mem entry;
     dyn_value := load_u32 mem (pointer_add host entry 4) |}.

Definition read_Elf64_Dyn (entries entry_index : Z) : GumElfDynamicEntryDetails :=
  let entry := pointer_add host entries (entry_index * sizeof_Elf64_Dyn) in
  {| dyn_type := load_s64 mem entry;
     dyn_value := load_u64 mem (pointer_add host entry 8) |}.

Definition gum_elf_module_enumerate_dynamic_entries {C : Type}
  (self : GumElfModule)
  (func : GumElfDynamicEntryDetails -> C -> bool * C) (user_data : C) : C :=
  match gum_elf_module_find_dynamic_range self with
  | None => user_data
  | Some dynamic =>
      let dynamic_begin :=
        GSIZE_TO_POINTER host
          (gum_elf_module_resolve_virtual_address self (range_base_address dynamic)) in
      match host with
      | Ptr32 =>
          let entries := dynamic_begin in
          let entry_count := to_guint32 (range_size dynamic / sizeof_Elf32_Dyn) in
          enumerate_from to_guint32 (read_Elf32_Dyn entries) func
            (Z.to_nat entry_count) 0 user_data
      | Ptr64 =>
          let entries := dynamic_begin in
          let entry_count := to_guint32 (range_size dynamic / sizeof_Elf64_Dyn) in
          enumerate_from to_guint32 (read_Elf64_Dyn entries) func
            (Z.to_nat entry_count) 0 user_data
      end
  end.

Record GumElfStoreSymtabParamsContext : Type := {
  pending : Z;
  entries : Z;
  entry_size : Z;
  entry_count : Z;
  symtab_strtab : Z;
  symtab_module : GumElfModule
}.

Definition gum_store_symtab_params (details : GumElfDynamicEntryDetails)
  (ctx : GumElfStoreSymtabParamsContext) : bool * GumElfStoreSymtabParamsContext :=
  let ctx' :=
    if dyn_type details =? DT_SYMTAB then
      {| pending := to_guint32 (pending ctx - 1);
         entries := GSIZE_TO_POINTER host
           (gum_elf_module_resolve_virtual_address (symtab_module ctx) (dyn_value details));
         entry_size := entry_size ctx;
         entry_count := entry_count ctx;
         symtab_strtab := symtab_strtab ctx;
         symtab_module := symtab_module ctx |}
    else if dyn_type details =? DT_SYMENT then
      {| pending := to_guint32 (pending ctx - 1);
         entries := entries ctx;
         entry_size := to_gsize host (dyn_value details);
         entry_count := entry_count ctx;
         symtab_strtab := symtab_strtab ctx;
         symtab_module := symtab_module ctx |}
    else if dyn_type details =? DT_HASH then
      let hash_params := GSIZE_TO_POINTER host
        (gum_elf_module_resolve_virtual_address (symtab_module ctx) (dyn_value details)) in
      let nchain := load_u32 mem (pointer_add host hash_params 4) in
      {| pending := to_guint32 (pending ctx - 1);
         entries := entries ctx;
         entry_size := entry_size ctx;
         entry_count := nchain;
         symtab_strtab := symtab_strtab ctx;
         symtab_module := symtab_module ctx |}
    else if dyn_type details =? DT_STRTAB then
      {| pending := to_guint32 (pending ctx - 1);
         entries := entries ctx;
         entry_size := entry_size ctx;
         entry_count := entry_count ctx;
         symtab_strtab := GSIZE_TO_POINTER host
           (gum_elf_module_resolve_virtual_address (symtab_module ctx) (dyn_value details));
         symtab_module := symtab_module ctx |}
    else ctx in
  (negb (pending ctx' =? 0), ctx').

Definition symbol_details (self : GumElfModule) (strtab : Z)
  (st_name st_value st_info st_shndx : Z) : GumElfSymbolDetails :=
  {| sym_name := pointer_add host strtab st_name;
     sym_address := gum_elf_module_resolve_virtual_address self st_value;
     sym_type := GELF_ST_TYPE st_info;
     sym_bind := GELF_ST_BIND st_info;
     section_header_index := st_shndx |}.

(** [Elf32_Sym]: st_name at 0, st_value at 4, st_info at 12, st_shndx at 14. *)
Definition read_Elf32_Sym (self : GumElfModule) (ctx : GumElfStoreSymtabParamsContext)
  (entry_index : Z) : GumElfSymbolDetails :=
  let entry := pointer_add host (entries ctx)
                 (to_gsize host (entry_index * entry_size ctx)) in
  symbol_details self (symtab_strtab ctx)
    (load_u32 mem entry)
    (load_u32 mem (pointer_add host entry 4))
    (load_u8 mem (pointer_add host entry 12))
    (load_u16 mem (pointer_add host entry 14)).

(** [Elf64_Sym]: st_name at 0, st_info at 4, st_shndx at 6, st_value at 8. *)
Definition read_Elf64_Sym (self : GumElfModule) (ctx : GumElfStoreSymtabParamsContext)
  (entry_index : Z) : GumElfSymbolDetails :=
  let entry := pointer_add host (entries ctx)
                 (to_gsize host (entry_index * entry_size ctx)) in
  symbol_details self (symtab_strtab ctx)
    (load_u32 mem entry)
    (load_u64 mem (pointer_add host entry 8))
    (load_u8 mem (pointer_add host entry 4))
    (load_u16 mem (pointer_add host entry 6)).

Definition symtab_params_init (self : GumElfModule) : GumElfStoreSymtabParamsContext :=
  {| pending := 4;
     entries := NULL;
     entry_size := 0;
     entry_count := 0;
     symtab_strtab := NULL;
     symtab_module := self |}.

Definition gum_elf_module_enumerate_dynamic_symbols {C : Type}
  (self : GumElfModule)
  (func : GumElfSymbolDetails -> C -> bool * C) (user_data : C) : C :=
  let ctx := gum_elf_module_enumerate_dynamic_entries self
               gum_store_symtab_params (symtab_params_init self) in
  if negb (pending ctx =? 0) then user_data
  else
    (* for (entry_index = 1; entry_index < ctx.entry_count; entry_index++) *)
    enumerate_from (to_gsize host)
      (match host with
       | Ptr32 => read_Elf32_Sym self ctx
       | Ptr64 => read_Elf64_Sym self ctx
       end)
      func (Z.to_nat (entry_count ctx - 1)) 1 user_data.

(** [None] is the division by a zero [sh_entsize], which the source
    performs before the first callback. *)
Definition gum_elf_module_enumerate_symbols_in_section {C : Type}
  (self : GumElfModule) (section : Z)
  (func : GumElfSymbolDetails -> C -> bool * C) (user_data : C) : option C :=
  match gum_elf_module_find_section_header self section, elf self with
  | Some (scn, shdr), Some e =>
      if sh_entsize shdr =? 0 then None
      else
        let symbol_count := to_guint32 (sh_size shdr / sh_entsize shdr) in
        let data := elf_getdata scn in
        Some (enumerate_from to_guint32
          (fun symbol_index =>
             let sym := gelf_getsym data symbol_index in
             {| sym_name := elf_strptr e (sh_link shdr) (st_name sym);
                sym_address := gum_elf_module_resolve_virtual_address self (st_value sym);
                sym_type := GELF_ST_TYPE (st_info sym);
                sym_bind := GELF_ST_BIND (st_info sym);
                section_header_index := st_shndx sym |})
          func (Z.to_nat symbol_count) 0 user_data)
  | _, _ => Some user_data
  end.

Definition gum_elf_module_enumerate_symbols {C : Type} (self : GumElfModule)
  (func : GumElfSymbolDetails -> C -> bool * C) (user_data : C) : option C :=
  gum_elf_module_enumerate_symbols_in_section self SHT_SYMTAB func user_data.

End Host.

(** ** Derived views *)

(** [GumExportType], [GumImportDetails] and [GumExportDetails] are
    declared by gum's process headers. *)
Inductive GumExportType : Set := GUM_EXPORT_FUNCTION | GUM_EXPORT_VARIABLE.

Record GumImportDetails : Type := {
  import_type : GumExportType;
  import_name : Z;
  import_module : Z;
  import_address : GumAddress
}.

Record GumExportDetails : Type := {
  export_type : GumExportType;
  export_name : Z;
  export_address : GumAddress
}.

Section Views.

Variable host : PointerSize.
Variable mem : Memory.
Variable U : Type.

Record GumElfEnumerateDepsContext : Type := {
  deps_func : GumElfDependencyDetails -> U -> bool * U;
  deps_user_data : U;
  deps_module : GumElfModule;
  deps_strtab : Z
}.

Record GumElfEnumerateImportsContext : Type := {
  imports_func : GumImportDetails -> U -> bool * U;
  imports_user_data : U
}.

Record GumElfEnumerateExportsContext : Type := {
  exports_func : GumExportDetails -> U -> bool * U;
  exports_user_data : U
}.

Definition gum_store_strtab (details : GumElfDynamicEntryDetails)
  (ctx : GumElfEnumerateDepsContext) : bool * GumElfEnumerateDepsContext :=
  if negb (dyn_type details =? DT_STRTAB) then (true, ctx)
  else
    (false,
     {| deps_func := deps_func ctx;
        deps_user_data := deps_user_data ctx;
        deps_module := deps_module ctx;
        deps_strtab := GSIZE_TO_POINTER host
          (gum_elf_module_resolve_virtual_address (deps_module ctx) (dyn_value details)) |}).

Definition gum_emit_each_needed (details : GumElfDynamicEntryDetails)
  (ctx : GumElfEnumerateDepsContext) : bool * GumElfEnumerateDepsContext :=
  if negb (dyn_type details =? DT_NEEDED) then (true, ctx)
  else
    let d := {| dep_name := pointer_add host (deps_strtab ctx) (dyn_value details) |} in
    let (carry_on, user_data') := deps_func ctx d (deps_user_data ctx) in
    (carry_on,
     {| deps_func := deps_func ctx;
        deps_user_data := user_data';
        deps_module := deps_module ctx;
        deps_strtab := deps_strtab ctx |}).

Definition gum_elf_module_enumerate_dependencies (self : GumElfModule)
  (func : GumElfDependencyDetails -> U -> bool * U) (user_data : U) : U :=
  let ctx := {| deps_func := func;
                deps_user_data := user_data;
                deps_module := self;
                deps_strtab := NULL |} in
  let ctx := gum_elf_module_enumerate_dynamic_entries host mem self gum_store_strtab ctx in
  if deps_strtab ctx =? NULL then deps_user_data ctx
  else
    deps_user_data
      (gum_elf_module_enumerate_dynamic_entries host mem self gum_emit_each_needed ctx).

Definition gum_emit_elf_import (details : GumElfSymbolDetails)
  (ctx : GumElfEnumerateImportsContext) : bool * GumElfEnumerateImportsContext :=
  if (section_header_index details =? SHN_UNDEF) &&
     ((sym_type details =? STT_FUNC) || (sym_type details =? STT_OBJECT))
  then
    let d := {| import_type := if sym_type details =? STT_FUNC
                               then GUM_EXPORT_FUNCTION
                               else GUM_EXPORT_VARIABLE;
                import_name := sym_name details;
                import_module := NULL;
                import_address := 0 |} in
    let (carry_on, user_data') := imports_func ctx d (imports_user_data ctx) in
    let ctx' := {| imports_func := imports_func ctx;
                   imports_user_data := user_data' |} in
    if negb carry_on then (false, ctx') else (true, ctx')
  else (true, ctx).

Definition gum_elf_module_enumerate_imports (self : GumElfModule)
  (func : GumImportDetails -> U -> bool * U) (user_data : U) : U :=
  let ctx := {| imports_func := func; imports_user_data := user_data |} in
  imports_user_data
    (gum_elf_module_enumerate_dynamic_symbols host mem self gum_emit_elf_import ctx).

Definition gum_emit_elf_export (details : GumElfSymbolDetails)
  (ctx : GumElfEnumerateExportsContext) : bool * GumElfEnumerateExportsContext :=
  if negb (section_header_index details =? SHN_UNDEF) &&
     ((sym_type details =? STT_FUNC) || (sym_type details =? STT_OBJECT)) &&
     ((sym_bind details =? STB_GLOBAL) || (sym_bind details =? STB_WEAK))
  then
    let d := {| export_type := if sym_type details =? STT_FUNC
                               then GUM_EXPORT_FUNCTION
                               else GUM_EXPORT_VARIABLE;
                export_name := sym_name details;
                export_address := sym_address details |} in
    let (carry_on, user_data') := exports_func ctx d (exports_user_data ctx) in
    let ctx' := {| exports_func := exports_func ctx;
                   exports_user_data := user_data' |} in
    if negb carry_on then (false, ctx') else (true, ctx')
  else (true, ctx).

Definition gum_elf_module_enumerate_exports (self : GumElfModule)
  (func : GumExportDetails -> U -> bool * U) (user_data : U) : U :=
  let ctx := {| exports_func := func; exports_user_data := user_data |} in
  exports_user_data
    (gum_elf_module_enumerate_dynamic_symbols host mem self gum_emit_elf_export ctx).

End Views.

Arguments gum_store_strtab host {U}.
Arguments gum_emit_each_needed host {U}.
Arguments gum_emit_elf_import {U}.
Arguments gum_emit_elf_export {U}.
Arguments gum_elf_module_enumerate_dependencies host mem {U}.
Arguments gum_elf_module_enumerate_imports host mem {U}.
Arguments gum_elf_module_enumerate_exports host mem {U}.

(** ** Construction *)

(** What [open], [lseek] and [mmap] leave behind for a path. *)
Inductive FileOutcome : Type :=
| open_failed
| mmap_failed (size : Z)
| file_mapped (data : list Z).

Section Construction.

(** The file system, libelf's parser and glib's [g_path_get_basename]. *)
Variable map_file : string -> FileOutcome.
Variable elf_memory : list Z -> option Elf.
Variable g_path_get_basename : string -> string.

Definition set_name (self : GumElfModule) (v : option string) : GumElfModule :=
  {| valid := valid self; name := v; path := path self;
     file_data := file_data self; file_size := file_size self;
     elf := elf self; ehdr := ehdr self;
     base_address := base_address self;
     preferred_address := preferred_address self |}.

Definition set_file (self : GumElfModule) (data : option (list Z)) (size : Z)
  : GumElfModule :=
  {| valid := valid self; name := name self; path := path self;
     file_data := data; file_size := size;
     elf := elf self; ehdr := ehdr self;
     base_address := base_address self;
     preferred_address := preferred_address self |}.

Definition set_elf (self : GumElfModule) (e : option Elf) (h : option GElf_Ehdr)
  : GumElfModule :=
  {| valid := valid self; name := name self; path := path self;
     file_data := file_data self; file_size := file_size self;
     elf := e; ehdr := h;
     base_address := base_address self;
     preferred_address := preferred_address self |}.

Definition set_preferred_address (self : GumElfModule) (a : GumAddress)
  : GumElfModule :=
  {| valid := valid self; name := name self; path := path self;
     file_data := file_data self; file_size := file_size self;
     elf := elf self; ehdr := ehdr self;
     base_address := base_address self;
     preferred_address := a |}.

Definition set_valid (self : GumElfModule) (v : bool) : GumElfModule :=
  {| valid := v; name := name self; path := path self;
     file_data := file_data self; file_size := file_size self;
     elf := elf self; ehdr := ehdr self;
     base_address := base_address self;
     preferred_address := preferred_address self |}.

(** The instance as GObject allocates it (zero-filled) with the two
    construction properties set. *)
Definition gum_elf_module_init (path' : string) (base_address' : GumAddress)
  : GumElfModule :=
  {| valid := false; name := None; path := path';
     file_data := None; file_size := 0;
     elf := None; ehdr := None;
     base_address := base_address';
     preferred_address := 0 |}.

Definition gum_elf_module_constructed (self : GumElfModule) : GumElfModule :=
  let self :=
    match name self with
    | None => set_name self (Some (g_path_get_basename (path self)))
    | Some _ => self
    end in
  match map_file (path self) with
  | open_failed => set_valid self false
  | mmap_failed size => set_valid (set_file self None size) false
  | file_mapped data =>
      let self := set_file self (Some data) (Z.of_nat (List.length data)) in
      match elf_memory data with
      | None => set_valid self false
      | Some e =>
          let self := set_elf self (Some e) (Some (gelf_getehdr e)) in
          let type := e_type (gelf_getehdr e) in
          if negb (type =? ET_EXEC) && negb (type =? ET_DYN)
          then set_valid self false
          else
            let self :=
              set_preferred_address self
                (gum_elf_module_compute_preferred_address self) in
            set_valid self true
      end
  end.

Definition gum_elf_module_new_from_memory (path' : string)
  (base_address' : GumAddress) : option GumElfModule :=
  let module := gum_elf_module_constructed (gum_elf_module_init path' base_address') in
  if negb (valid module) then None else Some module.

End Construction.

(** ** Observing an enumeration *)

(** A callback instrumented to note every invocation: the record it was
    handed and the verdict it gave.  Running an enumerator on
    [recording func] from an empty log yields the records delivered, in
    order, next to the user data [func] itself produced. *)
Definition recording {D U : Type} (func : D -> U -> bool * U)
  (d : D) (st : list (D * bool) * U) : bool * (list (D * bool) * U) :=
  let (carry_on, user_data') := func d (snd st) in
  (carry_on, (fst st ++ [(d, carry_on)], user_data')).

(** The callback that accepts every record and keeps it. *)
Definition keep_going {D : Type} (d : D) (acc : list D) : bool * list D :=
  (true, acc ++ [d]).

(** Handing a list of records to a callback until it says stop. *)
Fixpoint deliver {D C : Type} (func : D -> C -> bool * C) (records : list D)
  (user_data : C) : C :=
  match records with
  | [] => user_data
  | d :: rest =>
      let (carry_on, user_data') := func d user_data in
      if carry_on then deliver func rest user_data' else user_data'
  end.

(** In a log, a stop verdict is the last thing that happened; when it
    was given on the first record, that record is the only one. *)
Definition halts_at_stop {D : Type} (log : list (D * bool)) : Prop :=
  (forall d rest, log = (d, false) :: rest -> List.length log = 1%nat) /\
  (forall before d after, log = before ++ (d, false) :: after -> after = []).

Fixpoint indices (n : nat) (first : Z) : list Z :=
  match n with
  | O => []
  | S n' => first :: indices n' (first + 1)
  end.

(** The program headers a scan from 0 to [e_phnum] sees. *)
Definition program_headers (self : GumElfModule) : list GElf_Phdr :=
  match ehdr self, elf self with
  | Some h, Some e =>
      map (gelf_getphdr e) (indices (Z.to_nat (to_guint16 (e_phnum h))) 0)
  | _, _ => []
  end.

(** The dynamic entries and the dynamic symbols of an image: what the
    two enumerators hand to a callback that never stops. *)
Definition dynamic_entries (host : PointerSize) (mem : Memory) (self : GumElfModule)
  : list GumElfDynamicEntryDetails :=
  gum_elf_module_enumerate_dynamic_entries host mem self keep_going [].

Definition dynamic_symbols (host : PointerSize) (mem : Memory) (self : GumElfModule)
  : list GumElfSymbolDetails :=
  gum_elf_module_enumerate_dynamic_symbols host mem self keep_going [].

(** The symbols of the SHT_SYMTAB section, likewise; [None] when the
    enumerator divides by a zero entry size. *)
Definition section_symbols (self : GumElfModule) : option (list GumElfSymbolDetails) :=
  gum_elf_module_enumerate_symbols self keep_going [].

(** The classification of the derived views, in the words of the
    specification. *)
Definition is_import (s : GumElfSymbolDetails) : Prop :=
  section_header_index s = SHN_UNDEF /\
  (sym_type s = STT_FUNC \/ sym_type s = STT_OBJECT).

Definition is_export (s : GumElfSymbolDetails) : Prop :=
  section_header_index s <> SHN_UNDEF /\
  (sym_type s = STT_FUNC \/ sym_type s = STT_OBJECT) /\
  (sym_bind s = STB_GLOBAL \/ sym_bind s = STB_WEAK).

Definition is_importb (s : GumElfSymbolDetails) : bool :=
  (section_header_index s =? SHN_UNDEF) &&
  ((sym_type s =? STT_FUNC) || (sym_type s =? STT_OBJECT)).

Definition is_exportb (s : GumElfSymbolDetails) : bool :=
  negb (section_header_index s =? SHN_UNDEF) &&
  ((sym_type s =? STT_FUNC) || (sym_type s =? STT_OBJECT)) &&
  ((sym_bind s =? STB_GLOBAL) || (sym_bind s =? STB_WEAK)).

Definition import_of (s : GumElfSymbolDetails) : GumImportDetails :=
  {| import_type := if sym_type s =? STT_FUNC
                    then GUM_EXPORT_FUNCTION else GUM_EXPORT_VARIABLE;
     import_name := sym_name s;
     import_module := NULL;
     import_address := 0 |}.

Definition export_of (s : GumElfSymbolDetails) : GumExportDetails :=
  {| export_type := if sym_type s =? STT_FUNC
                    then GUM_EXPORT_FUNCTION else GUM_EXPORT_VARIABLE;
     export_name := sym_name s;
     export_address := sym_address s |}.

(** The invocations of the user's callback caused by handing one symbol
    to [gum_emit_elf_import], respectively [gum_emit_elf_export]. *)
Definition import_calls {U : Type} (func : GumImportDetails -> U -> bool * U)
  (u : U) (s : GumElfSymbolDetails) : list (GumImportDetails * bool) :=
  fst (imports_user_data _
         (snd (gum_emit_elf_import s
                 {| imports_func := recording func; imports_user_data := ([], u) |}))).

Definition export_calls {U : Type} (func : GumExportDetails -> U -> bool * U)
  (u : U) (s : GumElfSymbolDetails) : list (GumExportDetails * bool) :=
  fst (exports_user_data _
         (snd (gum_emit_elf_export s
                 {| exports_func := recording func; exports_user_data := ([], u) |}))).

(** The string a [const gchar *] points at, up to its terminator (or
    [fuel] characters). *)
Fixpoint c_string (mem : Memory) (fuel : nat) (p : Z) : string :=
  match fuel with
  | O => EmptyString
  | S fuel' =>
      let c := load_u8 mem p in
      if c =? 0 then EmptyString
      else String (Ascii.ascii_of_N (Z.to_N c)) (c_string mem fuel' (p + 1))
  end.

(** ** Concrete images *)

Module Fixture.

Fixpoint le_bytes (n : nat) (v : Z) : list Z :=
  match n with
  | O => []
  | S n' => v mod 256 :: le_bytes n' (v / 256)
  end.

Definition c_chars (s : string) : list Z :=
  map (fun a => Z.of_N (Ascii.N_of_ascii a)) (list_ascii_of_string s) ++ [0].

(** [place base bytes rest]: memory [rest] with [bytes] mapped at [base]. *)
Definition place (base : Z) (bytes : list Z) (rest : Memory) : Memory :=
  fun p =>
    if (base <=? p) && (p <? base + Z.of_nat (List.length bytes))
    then nth (Z.to_nat (p - base)) bytes 0
    else rest p.

Definition unmapped : Memory := fun _ => 0.

Definition Elf64_Dyn_bytes (d_tag d_val : Z) : list Z :=
  le_bytes 8 d_tag ++ le_bytes 8 d_val.

Definition Elf64_Sym_bytes (name' info shndx value : Z) : list Z :=
  le_bytes 4 name' ++ [info; 0] ++ le_bytes 2 shndx ++ le_bytes 8 value ++ le_bytes 8 0.

Definition no_phdr : GElf_Phdr :=
  {| p_type := PT_NULL; p_offset := 0; p_vaddr := 0; p_memsz := 0 |}.

Definition no_sym : GElf_Sym :=
  {| st_name := 0; st_info := 0; st_shndx := 0; st_value := 0 |}.

Definition phdr_table (l : list GElf_Phdr) (ndx : Z) : GElf_Phdr :=
  nth (Z.to_nat ndx) l no_phdr.

Definition sym_table (l : list GElf_Sym) (ndx : Z) : GElf_Sym :=
  nth (Z.to_nat ndx) l no_sym.

(** *** A shared object mapped at 0x7f0000000000 *)

Definition strtab_bytes : list Z :=
  [0] ++ c_chars "libc.so.6" ++ c_chars "libm.so.6" ++ c_chars "malloc"
      ++ c_chars "gum_init" ++ c_chars "helper".

Definition dynamic_bytes : list Z :=
  Elf64_Dyn_bytes DT_NEEDED 1 ++ Elf64_Dyn_bytes DT_NEEDED 11 ++
  Elf64_Dyn_bytes DT_STRTAB 0x2000 ++ Elf64_Dyn_bytes DT_HASH 0x1800 ++
  Elf64_Dyn_bytes DT_SYMTAB 0x1900 ++ Elf64_Dyn_bytes DT_SYMENT 24 ++
  Elf64_Dyn_bytes DT_NULL 0.

Definition hash_bytes : list Z := le_bytes 4 1 ++ le_bytes 4 4.

Definition symtab_bytes : list Z :=
  Elf64_Sym_bytes 0 0 0 0 ++
  Elf64_Sym_bytes 21 0x12 SHN_UNDEF 0 ++
  Elf64_Sym_bytes 28 0x12 7 0x1020 ++
  Elf64_Sym_bytes 37 0x02 7 0x1100.

Definition runtime_base : Z := 0x7f0000000000.

Definition libgum_mem : Memory :=
  place (runtime_base + 0x1000) dynamic_bytes
    (place (runtime_base + 0x1800) hash_bytes
      (place (runtime_base + 0x1900) symtab_bytes
        (place (runtime_base + 0x2000) strtab_bytes unmapped))).

Definition libgum_phdrs : list GElf_Phdr :=
  [ {| p_type := PT_LOAD; p_offset := 0; p_vaddr := 0; p_memsz := 0x3000 |};
    {| p_type := PT_DYNAMIC; p_offset := 0x1000; p_vaddr := 0x1000; p_memsz := 112 |} ].

Definition libgum_symtab_section : Elf_Scn :=
  {| scn_shdr := {| sh_type := SHT_SYMTAB; sh_link := 2; sh_size := 72; sh_entsize := 24 |};
     scn_sym := sym_table
       [ no_sym;
         {| st_name := 1; st_info := 0x12; st_shndx := 7; st_value := 0x1020 |};
         {| st_name := 10; st_info := 0x02; st_shndx := 7; st_value := 0x1100 |} ] |}.

Definition libgum_strtab_section : Elf_Scn :=
  {| scn_shdr := {| sh_type := 3; sh_link := 0; sh_size := 17; sh_entsize := 0 |};
     scn_sym := sym_table [] |}.

Definition libgum_elf : Elf :=
  {| elf_ehdr := {| e_type := ET_DYN; e_phnum := 2 |};
     elf_phdr := phdr_table libgum_phdrs;
     elf_scns := [libgum_symtab_section; libgum_strtab_section];
     elf_str := fun section offset => 0x10000 + 0x1000 * section + offset |}.

Definition image (e : Elf) (base preferred : Z) : GumElfModule :=
  {| valid := true; name := Some "image"%string; path := "/image"%string;
     file_data := Some []; file_size := 0;
     elf := Some e; ehdr := Some (elf_ehdr e);
     base_address := base; preferred_address := preferred |}.

Definition libgum : GumElfModule := image libgum_elf runtime_base 0.

(** *** A static executable: no dynamic segment *)

Definition static_elf : Elf :=
  {| elf_ehdr := {| e_type := ET_EXEC; e_phnum := 1 |};
     elf_phdr := phdr_table
       [ {| p_type := PT_LOAD; p_offset := 0; p_vaddr := 0x400000; p_memsz := 0x1000 |} ];
     elf_scns := [];
     elf_str := fun _ _ => NULL |}.

Definition static_exe : GumElfModule := image static_elf 0x400000 0x400000.

(** *** A dynamic segment that names DT_SYMTAB twice and DT_STRTAB never *)

Definition twice_dynamic_bytes : list Z :=
  Elf64_Dyn_bytes DT_SYMTAB 0x1900 ++ Elf64_Dyn_bytes DT_SYMTAB 0x1900 ++
  Elf64_Dyn_bytes DT_SYMENT 24 ++ Elf64_Dyn_bytes DT_HASH 0x1800 ++
  Elf64_Dyn_bytes DT_NULL 0.

Definition twice_mem : Memory :=
  place (runtime_base + 0x1000) twice_dynamic_bytes
    (place (runtime_base + 0x1800) hash_bytes
      (place (runtime_base + 0x1900) symtab_bytes unmapped)).

Definition twice_elf : Elf :=
  {| elf_ehdr := {| e_type := ET_DYN; e_phnum := 2 |};
     elf_phdr := phdr_table
       [ {| p_type := PT_LOAD; p_offset := 0; p_vaddr := 0; p_memsz := 0x3000 |};
         {| p_type := PT_DYNAMIC; p_offset := 0x1000; p_vaddr := 0x1000; p_memsz := 80 |} ];
     elf_scns := [];
     elf_str := fun _ _ => NULL |}.

Definition twice : GumElfModule := image twice_elf runtime_base 0.

(** *** A string table whose address resolves to the null pointer *)

Definition nullstr_dynamic_bytes : list Z :=
  Elf64_Dyn_bytes DT_NEEDED 1 ++ Elf64_Dyn_bytes DT_NEEDED 11 ++
  Elf64_Dyn_bytes DT_STRTAB 0 ++ Elf64_Dyn_bytes DT_NULL 0.

Definition nullstr_mem : Memory :=
  place 0x1000 nullstr_dynamic_bytes (place 0 strtab_bytes unmapped).

Definition nullstr_elf : Elf :=
  {| elf_ehdr := {| e_type := ET_DYN; e_phnum := 2 |};
     elf_phdr := phdr_table
       [ {| p_type := PT_LOAD; p_offset := 0; p_vaddr := 0; p_memsz := 0x3000 |};
         {| p_type := PT_DYNAMIC; p_offset := 0x1000; p_vaddr := 0x1000; p_memsz := 64 |} ];
     elf_scns := [];
     elf_str := fun _ _ => NULL |}.

Definition nullstr : GumElfModule := image nullstr_elf 0 0.

(** *** A dynamic segment without DT_STRTAB and without repeated tags *)

Definition nostrtab_dynamic_bytes : list Z :=
  Elf64_Dyn_bytes DT_SYMTAB 0x1900 ++ Elf64_Dyn_bytes DT_SYMENT 24 ++
  Elf64_Dyn_bytes DT_HASH 0x1800 ++ Elf64_Dyn_bytes DT_NULL 0.

Definition nostrtab_mem : Memory :=
  place (runtime_base + 0x1000) nostrtab_dynamic_bytes
    (place (runtime_base + 0x1800) hash_bytes
      (place (runtime_base + 0x1900) symtab_bytes unmapped)).

Definition nostrtab_elf : Elf :=
  {| elf_ehdr := {| e_type := ET_DYN; e_phnum := 2 |};
     elf_phdr := phdr_table
       [ {| p_type := PT_LOAD; p_offset := 0; p_vaddr := 0; p_memsz := 0x3000 |};
         {| p_type := PT_DYNAMIC; p_offset := 0x1000; p_vaddr := 0x1000; p_memsz := 64 |} ];
     elf_scns := [];
     elf_str := fun _ _ => NULL |}.

Definition nostrtab : GumElfModule := image nostrtab_elf runtime_base 0.

(** *** A symbol-table section header with a zero entry size *)

Definition zero_entsize_elf : Elf :=
  {| elf_ehdr := {| e_type := ET_DYN; e_phnum := 0 |};
     elf_phdr := phdr_table [];
     elf_scns :=
       [ {| scn_shdr := {| sh_type := SHT_SYMTAB; sh_link := 2; sh_size := 72;
                           sh_entsize := 0 |};
            scn_sym := sym_table [] |} ];
     elf_str := fun _ _ => NULL |}.

Definition zero_entsize : GumElfModule := image zero_entsize_elf runtime_base 0.

(** *** Files on disk *)

(** An executable whose first program header is an unused PT_NULL slot. *)
Definition padded_elf : Elf :=
  {| elf_ehdr := {| e_type := ET_EXEC; e_phnum := 2 |};
     elf_phdr := phdr_table
       [ no_phdr;
         {| p_type := PT_LOAD; p_offset := 0; p_vaddr := 0x400000; p_memsz := 0x1000 |} ];
     elf_scns := [];
     elf_str := fun _ _ => NULL |}.

Definition relocatable_elf : Elf :=
  {| elf_ehdr := {| e_type := ET_REL; e_phnum := 0 |};
     elf_phdr := phdr_table [];
     elf_scns := [];
     elf_str := fun _ _ => NULL |}.

Definition magic (tag : Z) : list Z := [0x7f; 0x45; 0x4c; 0x46; tag].

Definition map_file (path' : string) : FileOutcome :=
  if String.eqb path' "/usr/lib/libgum.so" then file_mapped (magic 1)
  else if String.eqb path' "/usr/bin/static" then file_mapped (magic 2)
  else if String.eqb path' "/tmp/padded" then file_mapped (magic 3)
  else if String.eqb path' "/tmp/object.o" then file_mapped (magic 4)
  else if String.eqb path' "/tmp/notes.txt" then file_mapped [0x68; 0x69]
  else if String.eqb path' "/tmp/empty" then mmap_failed 0
  else open_failed.

Definition elf_memory (data : list Z) : option Elf :=
  match data with
  | [0x7f; 0x45; 0x4c; 0x46; 1] => Some libgum_elf
  | [0x7f; 0x45; 0x4c; 0x46; 2] => Some static_elf
  | [0x7f; 0x45; 0x4c; 0x46; 3] => Some padded_elf
  | [0x7f; 0x45; 0x4c; 0x46; 4] => Some relocatable_elf
  | _ => None
  end.

(** The part of a path after its last slash. *)
Fixpoint basename_from (s acc : string) : string :=
  match s with
  | EmptyString => acc
  | String c rest =>
      if Ascii.eqb c "/"%char then basename_from rest EmptyString
      else basename_from rest (acc ++ String c EmptyString)
  end.

Definition g_path_get_basename (path' : string) : string :=
  basename_from path' EmptyString.

Definition new_from_memory : string -> GumAddress -> option GumElfModule :=
  gum_elf_module_new_from_memory map_file elf_memory g_path_get_basename.

Definition libgum_constructed : GumElfModule :=
  gum_elf_module_constructed map_file elf_memory g_path_get_basename
    (gum_elf_module_init "/usr/lib/libgum.so" runtime_base).

(** The records expected from the shared object above. *)
Definition malloc_symbol : GumElfSymbolDetails :=
  {| sym_name := runtime_base + 0x2000 + 21;
     sym_address := runtime_base;
     sym_type := STT_FUNC; sym_bind := STB_GLOBAL;
     section_header_index := SHN_UNDEF |}.

Definition gum_init_symbol : GumElfSymbolDetails :=
  {| sym_name := runtime_base + 0x2000 + 28;
     sym_address := runtime_base + 0x1020;
     sym_type := STT_FUNC; sym_bind := STB_GLOBAL;
     section_header_index := 7 |}.

Definition helper_symbol : GumElfSymbolDetails :=
  {| sym_name := runtime_base + 0x2000 + 37;
     sym_address := runtime_base + 0x1100;
     sym_type := STT_FUNC; sym_bind := STB_LOCAL;
     section_header_index := 7 |}.

(** Callbacks: one that stops at once, one that counts and goes on. *)
Definition stop_at_once {D : Type} (_ : D) (n : nat) : bool * nat := (false, S n).
Definition count_on {D : Type} (_ : D) (n : nat) : bool * nat := (true, S n).

End Fixture.

(** ** Statements in the words of the specification *)

(** "The virtual address of the first loadable segment whose file offset
    is zero; zero if there is none." *)
Definition first_loadable_at_offset_zero (self : GumElfModule) : GumAddress :=
  match find (fun ph => (p_type ph =? PT_LOAD) && (p_offset ph =? 0))
             (program_headers self) with
  | Some ph => p_vaddr ph
  | None => 0
  end.

(** What the scan of the source looks for: any header at file offset zero. *)
Definition first_header_at_offset_zero (self : GumElfModule) : GumAddress :=
  match find (fun ph => p_offset ph =? 0) (program_headers self) with
  | Some ph => p_vaddr ph
  | None => 0
  end.

Definition is_strtab (d : GumElfDynamicEntryDetails) : bool := dyn_type d =? DT_STRTAB.
Definition is_needed (d : GumElfDynamicEntryDetails) : bool := dyn_type d =? DT_NEEDED.

(** The dependency records of a dynamic-entry list read against a string
    table at [strtab], in on-disk order. *)
Definition needed_records (host : PointerSize) (strtab : Z)
  (l : list GumElfDynamicEntryDetails) : list GumElfDependencyDetails :=
  map (fun d => {| dep_name := pointer_add host strtab (dyn_value d) |})
      (filter is_needed l).

(** "If no string-table entry exists, zero dependencies are produced;
    otherwise a second pass emits a record for each DT_NEEDED entry." *)
Definition dependencies_as_specified (host : PointerSize) (mem : Memory)
  (self : GumElfModule) : Prop :=
  forall (func : GumElfDependencyDetails -> unit -> bool * unit),
    (forall d u, fst (func d u) = true) ->
    map fst (fst (gum_elf_module_enumerate_dependencies host mem self
                    (recording func) ([], tt))) =
    match find is_strtab (dynamic_entries host mem self) with
    | None => []
    | Some s =>
        needed_records host
          (GSIZE_TO_POINTER host
             (gum_elf_module_resolve_virtual_address self (dyn_value s)))
          (dynamic_entries host mem self)
    end.

(** The string-table pointer the first pass of the dependency
    enumeration ends with. *)
Definition captured_strtab (host : PointerSize) (mem : Memory)
  (self : GumElfModule) : Z :=
  match find is_strtab (dynamic_entries host mem self) with
  | None => NULL
  | Some s =>
      GSIZE_TO_POINTER host
        (gum_elf_module_resolve_virtual_address self (dyn_value s))
  end.

(** A list up to and including its first element that satisfies [p]. *)
Fixpoint up_to_first {A : Type} (p : A -> bool) (l : list A) : list A :=
  match l with
  | [] => []
  | a :: rest => a :: (if p a then [] else up_to_first p rest)
  end.

Definition deps_context_init {U : Type} (self : GumElfModule)
  (func : GumElfDependencyDetails -> U -> bool * U) (user_data : U)
  : GumElfEnumerateDepsContext U :=
  {| deps_func := func; deps_user_data := user_data;
     deps_module := self; deps_strtab := NULL |}.

(** The four tags [gum_store_symtab_params] counts down on. *)
Definition is_symtab_param (d : GumElfDynamicEntryDetails) : bool :=
  (dyn_type d =? DT_SYMTAB) || (dyn_type d =? DT_SYMENT) ||
  (dyn_type d =? DT_HASH) || (dyn_type d =? DT_STRTAB).

Definition tag_count (tag : Z) (l : list GumElfDynamicEntryDetails) : nat :=
  List.length (filter (fun d => dyn_type d =? tag) l).

(** The log a run of [deliver] on an instrumented callback adds. *)
Fixpoint run_log {D U : Type} (func : D -> U -> bool * U) (records : list D)
  (user_data : U) : list (D * bool) :=
  match records with
  | [] => []
  | d :: rest =>
      let (carry_on, user_data') := func d user_data in
      (d, carry_on) :: (if carry_on then run_log func rest user_data' else [])
  end.

(** ** Finalisation *)

(** What [gum_elf_module_finalize] hands back: the libelf handle, the
    file mapping with the length given to [munmap], and the two strings
    passed to [g_free]. *)
Inductive Release : Type :=
| elf_end (e : Elf)
| munmap (data : list Z) (size : Z)
| g_free (s : option string).

Definition gum_elf_module_finalize (self : GumElfModule) : list Release :=
  (match elf self with
   | Some e => [elf_end e]
   | None => []
   end) ++
  (match file_data self with
   | Some data => [munmap data (file_size self)]
   | None => []
   end) ++
  [g_free (Some (path self)); g_free (name self)].

(** ** Tables behind the enumerators *)

Definition first_with_tag (tag : Z) (l : list GumElfDynamicEntryDetails)
  : option GumElfDynamicEntryDetails :=
  find (fun d => dyn_type d =? tag) l.

(** The context [gum_store_symtab_params] leaves when it has taken each
    value from the first entry that carries its tag, starting from [ctx]. *)
Definition symtab_params_from (host : PointerSize) (mem : Memory)
  (ctx : GumElfStoreSymtabParamsContext) (l : list GumElfDynamicEntryDetails)
  : GumElfStoreSymtabParamsContext :=
  {| pending := 0;
     entries :=
       match first_with_tag DT_SYMTAB l with
       | Some d => GSIZE_TO_POINTER host
                     (gum_elf_module_resolve_virtual_address (symtab_module ctx) (dyn_value d))
       | None => entries ctx
       end;
     entry_size :=
       match first_with_tag DT_SYMENT l with
       | Some d => to_gsize host (dyn_value d)
       | None => entry_size ctx
       end;
     entry_count :=
       match first_with_tag DT_HASH l with
       | Some d =>
           load_u32 mem
             (pointer_add host
                (GSIZE_TO_POINTER host
                   (gum_elf_module_resolve_virtual_address (symtab_module ctx) (dyn_value d)))
                4)
       | None => entry_count ctx
       end;
     symtab_strtab :=
       match first_with_tag DT_STRTAB l with
       | Some d => GSIZE_TO_POINTER host
                     (gum_elf_module_resolve_virtual_address (symtab_module ctx) (dyn_value d))
       | None => symtab_strtab ctx
       end;
     symtab_module := symtab_module ctx |}.

(** The decoder the host's pointer size selects. *)
Definition read_Dyn (host : PointerSize) (mem : Memory) (entries' entry_index : Z)
  : GumElfDynamicEntryDetails :=
  match host with
  | Ptr32 => read_Elf32_Dyn host mem entries' entry_index
  | Ptr64 => read_Elf64_Dyn host mem entries' entry_index
  end.

Definition sizeof_Dyn (host : PointerSize) : Z :=
  match host with Ptr32 => sizeof_Elf32_Dyn | Ptr64 => sizeof_Elf64_Dyn end.

Definition read_Sym (host : PointerSize) (mem : Memory) (self : GumElfModule)
  (ctx : GumElfStoreSymtabParamsContext) (entry_index : Z) : GumElfSymbolDetails :=
  match host with
  | Ptr32 => read_Elf32_Sym host mem self ctx entry_index
  | Ptr64 => read_Elf64_Sym host mem self ctx entry_index
  end.

(** The record the section path builds for the symbol at an index. *)
Definition section_symbol (self : GumElfModule) (e : Elf) (scn : Elf_Scn)
  (shdr : GElf_Shdr) (symbol_index : Z) : GumElfSymbolDetails :=
  let sym := gelf_getsym (elf_getdata scn) symbol_index in
  {| sym_name := elf_strptr e (sh_link shdr) (st_name sym);
     sym_address := gum_elf_module_resolve_virtual_address self (st_value sym);
     sym_type := GELF_ST_TYPE (st_info sym);
     sym_bind := GELF_ST_BIND (st_info sym);
     section_header_index := st_shndx sym |}.

(** * Properties *)

(** ** Integer ranges *)

Lemma to_guint16_small (x : Z) : 0 <= x < 2 ^ 16 -> to_guint16 x = x.
Proof. intros Hx. unfold to_guint16. apply Z.mod_small. exact Hx. Qed.

Lemma to_guint32_small (x : Z) : 0 <= x < 2 ^ 32 -> to_guint32 x = x.
Proof. intros Hx. unfold to_guint32. apply Z.mod_small. exact Hx. Qed.

Lemma to_guint64_small (x : Z) : 0 <= x < 2 ^ 64 -> to_guint64 x = x.
Proof. intros Hx. unfold to_guint64. apply Z.mod_small. exact Hx. Qed.

Lemma to_guint16_range (x : Z) : 0 <= to_guint16 x < 2 ^ 16.
Proof. unfold to_guint16. apply Z.mod_pos_bound. lia. Qed.

Lemma to_guint32_range (x : Z) : 0 <= to_guint32 x < 2 ^ 32.
Proof. unfold to_guint32. apply Z.mod_pos_bound. lia. Qed.

Lemma to_gsize_small (host : PointerSize) (x : Z) :
  0 <= x < 2 ^ 32 -> to_gsize host x = x.
Proof.
  intros Hx. unfold to_gsize. apply Z.mod_small.
  destruct host; simpl sizeof_gpointer; lia.
Qed.

Lemma load_u8_range (mem : Memory) (p : Z) : 0 <= load_u8 mem p < 2 ^ 8.
Proof. unfold load_u8, to_guchar. apply Z.mod_pos_bound. lia. Qed.

Lemma load_u16_range (mem : Memory) (p : Z) : 0 <= load_u16 mem p < 2 ^ 16.
Proof.
  unfold load_u16.
  pose proof (load_u8_range mem p). pose proof (load_u8_range mem (p + 1)). lia.
Qed.

Lemma load_u32_range (mem : Memory) (p : Z) : 0 <= load_u32 mem p < 2 ^ 32.
Proof.
  unfold load_u32.
  pose proof (load_u16_range mem p). pose proof (load_u16_range mem (p + 2)). lia.
Qed.

(** ** Address translation *)

Lemma resolve_virtual_address_mod (self : GumElfModule) (a : GumAddress) :
  gum_elf_module_resolve_virtual_address self a =
  (base_address self + (a - preferred_address self)) mod 2 ^ 64.
Proof.
  unfold gum_elf_module_resolve_virtual_address, to_guint64.
  rewrite Z.add_mod_idemp_r by lia. reflexivity.
Qed.

(** C1.  The address translator computes B + (a - P) on 64-bit unsigned
    integers, where B is the runtime and P the preferred base address:
    the preferred base is sent to the runtime base, and moving the input
    by k moves the output by k (both with wrap-around). *)
Theorem resolve_virtual_address_affine (self : GumElfModule) (a k : Z) :
  is_guint64 (base_address self) ->
  gum_elf_module_resolve_virtual_address self a =
    (base_address self + (a - preferred_address self)) mod 2 ^ 64 /\
  gum_elf_module_resolve_virtual_address self (preferred_address self) =
    base_address self /\
  gum_elf_module_resolve_virtual_address self (to_guint64 (a + k)) =
    to_guint64 (gum_elf_module_resolve_virtual_address self a + k).
Proof.
  intros HB. split; [ apply resolve_virtual_address_mod | split ].
  - rewrite resolve_virtual_address_mod.
    replace (base_address self + (preferred_address self - preferred_address self))
      with (base_address self) by lia.
    apply Z.mod_small. exact HB.
  - rewrite !resolve_virtual_address_mod. unfold to_guint64.
    rewrite Z.add_mod_idemp_l by lia.
    rewrite <- (Z.add_mod_idemp_r (base_address self)
                  ((a + k) mod 2 ^ 64 - preferred_address self)) by lia.
    rewrite Zminus_mod_idemp_l.
    rewrite Z.add_mod_idemp_r by lia.
    f_equal. lia.
Qed.

Lemma resolve_virtual_address_affine_witness :
  is_guint64 (base_address Fixture.libgum) /\
  gum_elf_module_resolve_virtual_address Fixture.libgum 0 = Fixture.runtime_base /\
  gum_elf_module_resolve_virtual_address Fixture.libgum (to_guint64 (0x1000 + 0x20)) =
    to_guint64 (gum_elf_module_resolve_virtual_address Fixture.libgum 0x1000 + 0x20).
Proof.
  assert (H : is_guint64 (base_address Fixture.libgum))
    by (split; [ vm_compute; discriminate | vm_compute; reflexivity ]).
  split; [ exact H | split ].
  - exact (proj1 (proj2 (resolve_virtual_address_affine Fixture.libgum 0 0 H))).
  - exact (proj2 (proj2 (resolve_virtual_address_affine Fixture.libgum 0x1000 0x20 H))).
Defined.

(** C10, as worded: the scenario's result has a digit too many. *)
Lemma resolve_scenario_as_specified_fails :
  gum_elf_module_resolve_virtual_address
    (Fixture.image Fixture.static_elf 0x7f0000000000 0x400000) 0x401020
  <> 0x7f00000001020.
Proof. vm_compute. discriminate. Qed.

(** C10, amended.  With runtime base 0x7f0000000000 and preferred base
    0x400000, the link-time address 0x401020 resolves to 0x7f0000001020:
    the runtime base plus the offset 0x1020. *)
Theorem resolve_scenario :
  gum_elf_module_resolve_virtual_address
    (Fixture.image Fixture.static_elf 0x7f0000000000 0x400000) 0x401020
  = 0x7f0000001020.
Proof. vm_compute. reflexivity. Qed.

(** ** Program-header scans *)

Lemma compute_preferred_address_from_find (e : Elf) (n : nat) (i : Z) :
  0 <= i -> i + Z.of_nat n <= 2 ^ 16 ->
  compute_preferred_address_from e n i =
  match find (fun ph => p_offset ph =? 0) (map (gelf_getphdr e) (indices n i)) with
  | Some ph => p_vaddr ph
  | None => 0
  end.
Proof.
  revert i. induction n as [| n IH]; intros i Hi Hn; simpl.
  - reflexivity.
  - destruct (p_offset (gelf_getphdr e i) =? 0); [ reflexivity | ].
    destruct n as [| n'].
    + reflexivity.
    + rewrite to_guint16_small by lia. apply IH; lia.
Qed.

Lemma find_dynamic_range_from_find (host : PointerSize) (e : Elf) (n : nat) (i : Z) :
  0 <= i -> i + Z.of_nat n <= 2 ^ 16 ->
  find_dynamic_range_from host e n i =
  match find (fun ph => p_type ph =? PT_DYNAMIC) (map (gelf_getphdr e) (indices n i)) with
  | Some ph => Some {| range_base_address := p_vaddr ph;
                       range_size := to_gsize host (p_memsz ph) |}
  | None => None
  end.
Proof.
  revert i. induction n as [| n IH]; intros i Hi Hn; simpl.
  - reflexivity.
  - destruct (p_type (gelf_getphdr e i) =? PT_DYNAMIC); [ reflexivity | ].
    destruct n as [| n'].
    + reflexivity.
    + rewrite to_guint16_small by lia. apply IH; lia.
Qed.

Lemma header_count_fits (h : GElf_Ehdr) :
  0 + Z.of_nat (Z.to_nat (to_guint16 (e_phnum h))) <= 2 ^ 16.
Proof. pose proof (to_guint16_range (e_phnum h)). lia. Qed.

Lemma compute_preferred_address_scan (self : GumElfModule) :
  gum_elf_module_compute_preferred_address self = first_header_at_offset_zero self.
Proof.
  unfold gum_elf_module_compute_preferred_address, first_header_at_offset_zero,
    program_headers.
  destruct (ehdr self) as [h |]; [ | reflexivity ].
  destruct (elf self) as [e |]; [ | reflexivity ].
  apply compute_preferred_address_from_find; [ lia | apply header_count_fits ].
Qed.

Lemma find_dynamic_range_none (host : PointerSize) (self : GumElfModule) :
  Forall (fun ph => p_type ph <> PT_DYNAMIC) (program_headers self) ->
  gum_elf_module_find_dynamic_range host self = None.
Proof.
  unfold gum_elf_module_find_dynamic_range, program_headers.
  destruct (ehdr self) as [h |]; [ | reflexivity ].
  destruct (elf self) as [e |]; [ | reflexivity ].
  intros Hall.
  rewrite find_dynamic_range_from_find by (try lia; apply header_count_fits).
  destruct (find _ _) as [ph |] eqn:Hfind; [ | reflexivity ].
  apply find_some in Hfind. destruct Hfind as [Hin Hty].
  rewrite Forall_forall in Hall. apply Hall in Hin.
  apply Z.eqb_eq in Hty. contradiction.
Qed.

(** ** Construction *)

Section ConstructionProperties.

Variable map_file : string -> FileOutcome.
Variable elf_memory : list Z -> option Elf.
Variable g_path_get_basename : string -> string.

Let constructed := gum_elf_module_constructed map_file elf_memory g_path_get_basename.
Let new_from_memory := gum_elf_module_new_from_memory map_file elf_memory g_path_get_basename.

Lemma constructed_valid (self : GumElfModule) :
  valid (constructed self) = true ->
  exists self' e,
    elf self' = Some e /\ ehdr self' = Some (gelf_getehdr e) /\
    (e_type (gelf_getehdr e) = ET_EXEC \/ e_type (gelf_getehdr e) = ET_DYN) /\
    constructed self =
      set_valid (set_preferred_address self'
                   (gum_elf_module_compute_preferred_address self')) true.
Proof.
  unfold constructed, gum_elf_module_constructed.
  set (named := match name self with
                | Some _ => self
                | None => set_name self (Some (g_path_get_basename (path self)))
                end).
  destruct (map_file (path named)) as [| size | data]; simpl; try discriminate.
  destruct (elf_memory data) as [e |]; simpl; try discriminate.
  intros Hvalid.
  exists (set_elf (set_file named (Some data) (Z.of_nat (List.length data)))
            (Some e) (Some (gelf_getehdr e))), e.
  split; [ reflexivity | split; [ reflexivity | ] ].
  destruct (e_type (gelf_getehdr e) =? ET_EXEC) eqn:Hexec;
    [ | destruct (e_type (gelf_getehdr e) =? ET_DYN) eqn:Hdyn ];
    simpl in Hvalid |- *; try discriminate Hvalid.
  - split; [ left; apply Z.eqb_eq; exact Hexec | reflexivity ].
  - split; [ right; apply Z.eqb_eq; exact Hdyn | reflexivity ].
Qed.

Lemma new_from_memory_valid (path' : string) (base : GumAddress) :
  valid (constructed (gum_elf_module_init path' base)) = true ->
  new_from_memory path' base = Some (constructed (gum_elf_module_init path' base)).
Proof.
  intros Hvalid. unfold new_from_memory, gum_elf_module_new_from_memory.
  fold constructed. rewrite Hvalid. reflexivity.
Qed.

(** C2, amended.  For every successfully constructed image, the
    preferred base address is the virtual address of the first program
    header, of whatever type, whose file offset is zero, scanning the
    program headers in order; it is zero when no header has file offset
    zero. *)
Theorem preferred_address_first_offset_zero (path' : string) (base : GumAddress)
  (module : GumElfModule) :
  new_from_memory path' base = Some module ->
  preferred_address module = first_header_at_offset_zero module.
Proof.
  unfold new_from_memory, gum_elf_module_new_from_memory.
  fold constructed.
  destruct (valid (constructed (gum_elf_module_init path' base))) eqn:Hvalid;
    simpl; [ | discriminate ].
  intros Hsome. injection Hsome as <-.
  destruct (constructed_valid _ Hvalid) as (self' & e & _ & _ & _ & ->).
  change (gum_elf_module_compute_preferred_address self'
          = first_header_at_offset_zero self').
  apply compute_preferred_address_scan.
Qed.

(** C9.  When the file parses as ELF and the object type in its header
    is neither ET_EXEC nor ET_DYN, construction marks the module invalid
    and the constructor returns no module. *)
Theorem unsupported_type_rejected (path' : string) (base : GumAddress)
  (data : list Z) (e : Elf) :
  map_file path' = file_mapped data ->
  elf_memory data = Some e ->
  e_type (elf_ehdr e) <> ET_EXEC ->
  e_type (elf_ehdr e) <> ET_DYN ->
  valid (constructed (gum_elf_module_init path' base)) = false /\
  new_from_memory path' base = None.
Proof.
  intros Hmap Hparse Hexec Hdyn.
  assert (Hinvalid : valid (constructed (gum_elf_module_init path' base)) = false).
  { unfold constructed, gum_elf_module_constructed. simpl.
    rewrite Hmap. simpl. rewrite Hparse. unfold gelf_getehdr.
    apply Z.eqb_neq in Hexec. apply Z.eqb_neq in Hdyn.
    rewrite Hexec, Hdyn. reflexivity. }
  split; [ exact Hinvalid | ].
  unfold new_from_memory, gum_elf_module_new_from_memory.
  fold constructed. rewrite Hinvalid. reflexivity.
Qed.

End ConstructionProperties.

(** C2, as worded: a PT_NULL header at file offset zero ahead of the
    first PT_LOAD decides the preferred address, here 0 where the first
    loadable segment at offset zero sits at 0x400000. *)
Lemma preferred_address_not_first_loadable :
  option_map (fun m => (preferred_address m, first_loadable_at_offset_zero m))
    (Fixture.new_from_memory "/tmp/padded" 0x400000)
  = Some (0, 0x400000).
Proof. vm_compute. reflexivity. Qed.

Lemma preferred_address_first_offset_zero_witness :
  Fixture.new_from_memory "/usr/lib/libgum.so" Fixture.runtime_base
    = Some Fixture.libgum_constructed /\
  preferred_address Fixture.libgum_constructed
    = first_header_at_offset_zero Fixture.libgum_constructed.
Proof.
  assert (Hnew : Fixture.new_from_memory "/usr/lib/libgum.so" Fixture.runtime_base
                 = Some Fixture.libgum_constructed).
  { apply new_from_memory_valid. vm_compute. reflexivity. }
  split; [ exact Hnew | ].
  exact (preferred_address_first_offset_zero _ _ _ _ _ _ Hnew).
Defined.

Lemma unsupported_type_rejected_witness :
  e_type (elf_ehdr Fixture.relocatable_elf) = ET_REL /\
  Fixture.new_from_memory "/tmp/object.o" 0x400000 = None.
Proof.
  split; [ reflexivity | ].
  apply (unsupported_type_rejected Fixture.map_file Fixture.elf_memory
           Fixture.g_path_get_basename "/tmp/object.o" 0x400000
           (Fixture.magic 4) Fixture.relocatable_elf).
  - reflexivity.
  - reflexivity.
  - vm_compute. discriminate.
  - vm_compute. discriminate.
Defined.

(** ** Enumeration as delivery of a table *)

Lemma indices_length (n : nat) (first : Z) : List.length (indices n first) = n.
Proof. revert first. induction n as [| n IH]; intros first; simpl; [ | rewrite IH ]; reflexivity. Qed.

Lemma enumerate_from_deliver {D C : Type} (wrap : Z -> Z) (decode : Z -> D)
  (func : D -> C -> bool * C) (n : nat) (first : Z) (c : C) :
  (forall i, first < i < first + Z.of_nat n -> wrap i = i) ->
  enumerate_from wrap decode func n first c =
  deliver func (map decode (indices n first)) c.
Proof.
  revert first c. induction n as [| n IH]; intros first c Hwrap; simpl.
  - reflexivity.
  - destruct (func (decode first) c) as [carry_on c'].
    destruct carry_on; [ | reflexivity ].
    destruct n as [| n'].
    + reflexivity.
    + rewrite Hwrap by lia. apply IH. intros i Hi. apply Hwrap. lia.
Qed.

Lemma deliver_keep_going {D : Type} (l acc : list D) :
  deliver keep_going l acc = acc ++ l.
Proof.
  revert acc. induction l as [| d l IH]; intros acc; simpl.
  - rewrite app_nil_r. reflexivity.
  - rewrite IH, <- app_assoc. reflexivity.
Qed.

Lemma deliver_invariant {D C : Type} (P : C -> Prop) (func : D -> C -> bool * C)
  (l : list D) (c : C) :
  P c -> (forall d c', P c' -> P (snd (func d c'))) -> P (deliver func l c).
Proof.
  intros Hc Hstep. revert c Hc. induction l as [| d l IH]; intros c Hc; simpl.
  - exact Hc.
  - pose proof (Hstep d c Hc) as Hnext.
    destruct (func d c) as [carry_on c']. simpl in Hnext.
    destruct carry_on; [ apply IH | ]; exact Hnext.
Qed.

Lemma guint32_loop_fits (x : Z) (i : Z) :
  0 < i < 0 + Z.of_nat (Z.to_nat (to_guint32 x)) -> to_guint32 i = i.
Proof.
  intros Hi. pose proof (to_guint32_range x). apply to_guint32_small. lia.
Qed.

(** Whatever the callback, the dynamic-entry enumerator hands it the
    entries of [dynamic_entries], in order, until it says stop. *)
Lemma enumerate_dynamic_entries_deliver {C : Type} (host : PointerSize)
  (mem : Memory) (self : GumElfModule)
  (func : GumElfDynamicEntryDetails -> C -> bool * C) (c : C) :
  gum_elf_module_enumerate_dynamic_entries host mem self func c =
  deliver func (dynamic_entries host mem self) c.
Proof.
  unfold dynamic_entries, gum_elf_module_enumerate_dynamic_entries.
  destruct (gum_elf_module_find_dynamic_range host self) as [dynamic |];
    [ | reflexivity ].
  destruct host;
    rewrite !enumerate_from_deliver by apply guint32_loop_fits;
    rewrite deliver_keep_going; reflexivity.
Qed.

Lemma store_symtab_params_entry_count (host : PointerSize) (mem : Memory)
  (d : GumElfDynamicEntryDetails) (ctx : GumElfStoreSymtabParamsContext) :
  0 <= entry_count ctx < 2 ^ 32 ->
  0 <= entry_count (snd (gum_store_symtab_params host mem d ctx)) < 2 ^ 32.
Proof.
  intros Hctx. unfold gum_store_symtab_params. simpl.
  destruct (dyn_type d =? DT_SYMTAB); [ exact Hctx | ].
  destruct (dyn_type d =? DT_SYMENT); [ exact Hctx | ].
  destruct (dyn_type d =? DT_HASH); [ apply load_u32_range | ].
  destruct (dyn_type d =? DT_STRTAB); exact Hctx.
Qed.

Lemma symtab_entry_count_range (host : PointerSize) (mem : Memory)
  (self : GumElfModule) :
  0 <= entry_count
         (gum_elf_module_enumerate_dynamic_entries host mem self
            (gum_store_symtab_params host mem) (symtab_params_init self)) < 2 ^ 32.
Proof.
  rewrite enumerate_dynamic_entries_deliver.
  apply (deliver_invariant (fun ctx => 0 <= entry_count ctx < 2 ^ 32)).
  - simpl. lia.
  - intros d ctx. apply store_symtab_params_entry_count.
Qed.

(** The same for the dynamic-symbol enumerator and [dynamic_symbols]. *)
Lemma enumerate_dynamic_symbols_deliver {C : Type} (host : PointerSize)
  (mem : Memory) (self : GumElfModule)
  (func : GumElfSymbolDetails -> C -> bool * C) (c : C) :
  gum_elf_module_enumerate_dynamic_symbols host mem self func c =
  deliver func (dynamic_symbols host mem self) c.
Proof.
  unfold dynamic_symbols, gum_elf_module_enumerate_dynamic_symbols.
  pose proof (symtab_entry_count_range host mem self) as Hcount.
  set (ctx := gum_elf_module_enumerate_dynamic_entries host mem self
                (gum_store_symtab_params host mem) (symtab_params_init self)) in *.
  destruct (negb (pending ctx =? 0)); [ reflexivity | ].
  assert (Hfits : forall i, 1 < i < 1 + Z.of_nat (Z.to_nat (entry_count ctx - 1)) ->
                            to_gsize host i = i)
    by (intros i Hi; apply to_gsize_small; lia).
  rewrite !enumerate_from_deliver by exact Hfits.
  rewrite deliver_keep_going. reflexivity.
Qed.

(** ** Logs of instrumented callbacks *)

Lemma deliver_recording {D U : Type} (func : D -> U -> bool * U) (l : list D)
  (log : list (D * bool)) (u : U) :
  deliver (recording func) l (log, u) = (log ++ run_log func l u, deliver func l u).
Proof.
  revert log u. induction l as [| d l IH]; intros log u; simpl.
  - rewrite app_nil_r. reflexivity.
  - unfold recording at 1. simpl.
    destruct (func d u) as [carry_on u']. destruct carry_on.
    + rewrite IH, <- app_assoc. reflexivity.
    + reflexivity.
Qed.

Lemma run_log_stop_is_last {D U : Type} (func : D -> U -> bool * U) (l : list D)
  (u : U) (before : list (D * bool)) (d : D) (after : list (D * bool)) :
  run_log func l u = before ++ (d, false) :: after -> after = [].
Proof.
  revert u before. induction l as [| d0 l IH]; intros u before; simpl.
  - destruct before; discriminate.
  - destruct (func d0 u) as [carry_on u'].
    destruct before as [| b before']; simpl; intros Heq.
    + injection Heq as _ Hverdict Hrest. subst carry_on. symmetry. exact Hrest.
    + injection Heq as _ Hrest. destruct carry_on.
      * apply (IH _ _ Hrest).
      * destruct before'; discriminate.
Qed.

Lemma run_log_halts_at_stop {D U : Type} (func : D -> U -> bool * U) (l : list D)
  (u : U) : halts_at_stop (run_log func l u).
Proof.
  split.
  - intros d rest Heq.
    rewrite (run_log_stop_is_last func l u [] d rest Heq) in Heq.
    rewrite Heq. reflexivity.
  - intros before d after. apply run_log_stop_is_last.
Qed.

(** The records of a log are an initial segment of the table. *)
Lemma run_log_prefix {D U : Type} (func : D -> U -> bool * U) (l : list D) (u : U) :
  map fst (run_log func l u) = firstn (List.length (run_log func l u)) l.
Proof.
  revert u. induction l as [| d l IH]; intros u; simpl.
  - reflexivity.
  - destruct (func d u) as [carry_on u']. simpl. f_equal.
    destruct carry_on; [ apply IH | reflexivity ].
Qed.

Lemma run_log_never_stops {D U : Type} (func : D -> U -> bool * U) (l : list D) (u : U) :
  (forall d u', fst (func d u') = true) -> map fst (run_log func l u) = l.
Proof.
  intros Hgo. revert u. induction l as [| d l IH]; intros u; simpl.
  - reflexivity.
  - pose proof (Hgo d u) as Hd. destruct (func d u) as [carry_on u'].
    simpl in Hd. subst carry_on. simpl. f_equal. apply IH.
Qed.

Lemma enumerate_symbols_deliver {C : Type} (self : GumElfModule)
  (func : GumElfSymbolDetails -> C -> bool * C) (c : C) :
  gum_elf_module_enumerate_symbols self func c =
  option_map (fun table => deliver func table c) (section_symbols self).
Proof.
  unfold section_symbols, gum_elf_module_enumerate_symbols,
    gum_elf_module_enumerate_symbols_in_section.
  destruct (gum_elf_module_find_section_header self SHT_SYMTAB) as [[scn shdr] |];
    [ | reflexivity ].
  destruct (elf self) as [e |]; [ | reflexivity ].
  destruct (sh_entsize shdr =? 0); [ reflexivity | ].
  simpl. rewrite !enumerate_from_deliver by apply guint32_loop_fits.
  rewrite deliver_keep_going. reflexivity.
Qed.

(** ** Images without a dynamic segment *)

Lemma dynamic_entries_nil (host : PointerSize) (mem : Memory) (self : GumElfModule) :
  gum_elf_module_find_dynamic_range host self = None ->
  dynamic_entries host mem self = [].
Proof.
  intros Hnone. unfold dynamic_entries, gum_elf_module_enumerate_dynamic_entries.
  rewrite Hnone. reflexivity.
Qed.

Lemma dynamic_symbols_nil (host : PointerSize) (mem : Memory) (self : GumElfModule) :
  dynamic_entries host mem self = [] -> dynamic_symbols host mem self = [].
Proof.
  intros Hnil. unfold dynamic_symbols, gum_elf_module_enumerate_dynamic_symbols.
  rewrite enumerate_dynamic_entries_deliver, Hnil. reflexivity.
Qed.

(** C3.  On a valid image none of whose program headers is PT_DYNAMIC,
    the dependency, import and export enumerations each return with an
    empty log: the callback is never invoked, its user data comes back
    untouched, and the enumerators have no failure outcome. *)
Theorem no_dynamic_segment_no_records {U : Type} (host : PointerSize)
  (mem : Memory) (self : GumElfModule)
  (on_dependency : GumElfDependencyDetails -> U -> bool * U)
  (on_import : GumImportDetails -> U -> bool * U)
  (on_export : GumExportDetails -> U -> bool * U) (u : U) :
  valid self = true ->
  Forall (fun ph => p_type ph <> PT_DYNAMIC) (program_headers self) ->
  gum_elf_module_enumerate_dependencies host mem self (recording on_dependency) ([], u)
    = ([], u) /\
  gum_elf_module_enumerate_imports host mem self (recording on_import) ([], u)
    = ([], u) /\
  gum_elf_module_enumerate_exports host mem self (recording on_export) ([], u)
    = ([], u).
Proof.
  intros _ Hnone.
  pose proof (dynamic_entries_nil host mem self (find_dynamic_range_none host self Hnone))
    as Hentries.
  pose proof (dynamic_symbols_nil host mem self Hentries) as Hsymbols.
  repeat split.
  - unfold gum_elf_module_enumerate_dependencies.
    rewrite !enumerate_dynamic_entries_deliver, Hentries. reflexivity.
  - unfold gum_elf_module_enumerate_imports.
    rewrite enumerate_dynamic_symbols_deliver, Hsymbols. reflexivity.
  - unfold gum_elf_module_enumerate_exports.
    rewrite enumerate_dynamic_symbols_deliver, Hsymbols. reflexivity.
Qed.

Lemma no_dynamic_segment_no_records_witness :
  valid Fixture.static_exe = true /\
  Forall (fun ph => p_type ph <> PT_DYNAMIC) (program_headers Fixture.static_exe) /\
  gum_elf_module_enumerate_dependencies Ptr64 Fixture.libgum_mem Fixture.static_exe
    (recording Fixture.count_on) ([], O) = ([], O) /\
  gum_elf_module_enumerate_imports Ptr64 Fixture.libgum_mem Fixture.static_exe
    (recording Fixture.count_on) ([], O) = ([], O) /\
  gum_elf_module_enumerate_exports Ptr64 Fixture.libgum_mem Fixture.static_exe
    (recording Fixture.count_on) ([], O) = ([], O).
Proof.
  assert (Hheaders : Forall (fun ph => p_type ph <> PT_DYNAMIC)
                       (program_headers Fixture.static_exe)).
  { apply Forall_forall. intros ph Hin. vm_compute in Hin.
    destruct Hin as [<- | []]. vm_compute. discriminate. }
  split; [ reflexivity | split; [ exact Hheaders | ] ].
  exact (no_dynamic_segment_no_records Ptr64 Fixture.libgum_mem Fixture.static_exe
           Fixture.count_on Fixture.count_on Fixture.count_on O
           eq_refl Hheaders).
Defined.

(** ** Early termination *)

(** C5.  For the three enumeration entry points (dynamic entries,
    dynamic symbols, section symbols) and every callback: in the log of
    the run a stop verdict is the last entry, so a stop on the first
    record leaves exactly one record delivered whatever the size of the
    table, and the records delivered are the initial segment of the
    table that ends at the stop. *)
Theorem enumeration_halts_at_stop {U : Type} (host : PointerSize) (mem : Memory)
  (self : GumElfModule)
  (on_entry : GumElfDynamicEntryDetails -> U -> bool * U)
  (on_symbol : GumElfSymbolDetails -> U -> bool * U) (u : U) :
  (let log := fst (gum_elf_module_enumerate_dynamic_entries host mem self
                     (recording on_entry) ([], u)) in
   halts_at_stop log /\
   map fst log = firstn (List.length log) (dynamic_entries host mem self)) /\
  (let log := fst (gum_elf_module_enumerate_dynamic_symbols host mem self
                     (recording on_symbol) ([], u)) in
   halts_at_stop log /\
   map fst log = firstn (List.length log) (dynamic_symbols host mem self)) /\
  match gum_elf_module_enumerate_symbols self (recording on_symbol) ([], u),
        section_symbols self with
  | Some (log, _), Some table =>
      halts_at_stop log /\ map fst log = firstn (List.length log) table
  | None, None => True
  | _, _ => False
  end.
Proof.
  split; [ | split ].
  - rewrite enumerate_dynamic_entries_deliver, deliver_recording. simpl.
    split; [ apply run_log_halts_at_stop | apply run_log_prefix ].
  - rewrite enumerate_dynamic_symbols_deliver, deliver_recording. simpl.
    split; [ apply run_log_halts_at_stop | apply run_log_prefix ].
  - rewrite enumerate_symbols_deliver.
    destruct (section_symbols self) as [table |]; simpl; [ | exact I ].
    rewrite deliver_recording. simpl.
    split; [ apply run_log_halts_at_stop | apply run_log_prefix ].
Qed.

Lemma enumeration_halts_at_stop_witness :
  List.length (dynamic_entries Ptr64 Fixture.libgum_mem Fixture.libgum) = 7%nat /\
  List.length (fst (gum_elf_module_enumerate_dynamic_entries Ptr64 Fixture.libgum_mem
                      Fixture.libgum (recording Fixture.stop_at_once) ([], O))) = 1%nat /\
  List.length (dynamic_symbols Ptr64 Fixture.libgum_mem Fixture.libgum) = 3%nat /\
  List.length (fst (gum_elf_module_enumerate_dynamic_symbols Ptr64 Fixture.libgum_mem
                      Fixture.libgum (recording Fixture.stop_at_once) ([], O))) = 1%nat /\
  option_map (@List.length _) (section_symbols Fixture.libgum) = Some 3%nat /\
  option_map (fun st => List.length (fst st))
    (gum_elf_module_enumerate_symbols Fixture.libgum
       (recording Fixture.stop_at_once) ([], O)) = Some 1%nat.
Proof.
  destruct (enumeration_halts_at_stop Ptr64 Fixture.libgum_mem Fixture.libgum
              Fixture.stop_at_once Fixture.stop_at_once O)
    as [[[Hentry _] _] [[[Hsymbol _] _] Hsection]].
  split; [ vm_compute; reflexivity | split ]; [ | split; [ vm_compute; reflexivity | split ] ].
  - eapply Hentry. vm_compute. reflexivity.
  - eapply Hsymbol. vm_compute. reflexivity.
  - split; [ vm_compute; reflexivity | ].
    destruct (gum_elf_module_enumerate_symbols Fixture.libgum
                (recording Fixture.stop_at_once) ([], O)) as [[log u'] |] eqn:Hrun;
      destruct (section_symbols Fixture.libgum) as [table |];
      try contradiction; [ | vm_compute in Hrun; discriminate Hrun ].
    destruct Hsection as [[Hfirst _] _]. simpl. f_equal.
    eapply Hfirst. vm_compute in Hrun. injection Hrun as <- _. reflexivity.
Defined.

(** ** Imports and exports *)

Lemma is_importb_spec (s : GumElfSymbolDetails) : is_importb s = true <-> is_import s.
Proof.
  unfold is_importb, is_import.
  rewrite andb_true_iff, orb_true_iff, !Z.eqb_eq. reflexivity.
Qed.

Lemma is_exportb_spec (s : GumElfSymbolDetails) : is_exportb s = true <-> is_export s.
Proof.
  unfold is_exportb, is_export.
  rewrite !andb_true_iff, !orb_true_iff, negb_true_iff, !Z.eqb_eq, Z.eqb_neq.
  tauto.
Qed.

Lemma emit_elf_import_eq {U : Type} (s : GumElfSymbolDetails)
  (ctx : GumElfEnumerateImportsContext U) :
  gum_emit_elf_import s ctx =
  if is_importb s
  then (fst (imports_func _ ctx (import_of s) (imports_user_data _ ctx)),
        {| imports_func := imports_func _ ctx;
           imports_user_data :=
             snd (imports_func _ ctx (import_of s) (imports_user_data _ ctx)) |})
  else (true, ctx).
Proof.
  unfold gum_emit_elf_import, is_importb. fold (import_of s).
  destruct (_ && _); [ | reflexivity ].
  destruct (imports_func U ctx (import_of s) (imports_user_data U ctx)) as [carry_on u'].
  destruct carry_on; reflexivity.
Qed.

Lemma emit_elf_export_eq {U : Type} (s : GumElfSymbolDetails)
  (ctx : GumElfEnumerateExportsContext U) :
  gum_emit_elf_export s ctx =
  if is_exportb s
  then (fst (exports_func _ ctx (export_of s) (exports_user_data _ ctx)),
        {| exports_func := exports_func _ ctx;
           exports_user_data :=
             snd (exports_func _ ctx (export_of s) (exports_user_data _ ctx)) |})
  else (true, ctx).
Proof.
  unfold gum_emit_elf_export, is_exportb. fold (export_of s).
  destruct (_ && _); [ | reflexivity ].
  destruct (exports_func U ctx (export_of s) (exports_user_data U ctx)) as [carry_on u'].
  destruct carry_on; reflexivity.
Qed.

Lemma deliver_emit_elf_import {U : Type} (func : GumImportDetails -> U -> bool * U)
  (l : list GumElfSymbolDetails) (u : U) :
  imports_user_data _
    (deliver gum_emit_elf_import l {| imports_func := func; imports_user_data := u |})
  = deliver func (map import_of (filter is_importb l)) u.
Proof.
  revert u. induction l as [| s l IH]; intros u; simpl; [ reflexivity | ].
  rewrite emit_elf_import_eq. simpl.
  destruct (is_importb s); simpl; [ | apply IH ].
  destruct (func (import_of s) u) as [carry_on u']. simpl.
  destruct carry_on; [ apply IH | reflexivity ].
Qed.

Lemma deliver_emit_elf_export {U : Type} (func : GumExportDetails -> U -> bool * U)
  (l : list GumElfSymbolDetails) (u : U) :
  exports_user_data _
    (deliver gum_emit_elf_export l {| exports_func := func; exports_user_data := u |})
  = deliver func (map export_of (filter is_exportb l)) u.
Proof.
  revert u. induction l as [| s l IH]; intros u; simpl; [ reflexivity | ].
  rewrite emit_elf_export_eq. simpl.
  destruct (is_exportb s); simpl; [ | apply IH ].
  destruct (func (export_of s) u) as [carry_on u']. simpl.
  destruct carry_on; [ apply IH | reflexivity ].
Qed.

Lemma enumerate_imports_deliver {U : Type} (host : PointerSize) (mem : Memory)
  (self : GumElfModule) (func : GumImportDetails -> U -> bool * U) (u : U) :
  gum_elf_module_enumerate_imports host mem self func u =
  deliver func (map import_of (filter is_importb (dynamic_symbols host mem self))) u.
Proof.
  unfold gum_elf_module_enumerate_imports.
  rewrite enumerate_dynamic_symbols_deliver. apply deliver_emit_elf_import.
Qed.

Lemma enumerate_exports_deliver {U : Type} (host : PointerSize) (mem : Memory)
  (self : GumElfModule) (func : GumExportDetails -> U -> bool * U) (u : U) :
  gum_elf_module_enumerate_exports host mem self func u =
  deliver func (map export_of (filter is_exportb (dynamic_symbols host mem self))) u.
Proof.
  unfold gum_elf_module_enumerate_exports.
  rewrite enumerate_dynamic_symbols_deliver. apply deliver_emit_elf_export.
Qed.

Lemma logged_record_in_table {D U : Type} (func : D -> U -> bool * U) (l : list D)
  (u : U) (r : D) (v : bool) :
  In (r, v) (run_log func l u) -> In r l.
Proof.
  intros Hin. apply (in_map fst) in Hin. simpl in Hin.
  rewrite run_log_prefix in Hin.
  rewrite <- (firstn_skipn (List.length (run_log func l u)) l).
  apply in_or_app. left. exact Hin.
Qed.

Lemma in_filtered_table {A B : Type} (f : A -> B) (p : A -> bool) (l : list A) (b : B) :
  In b (map f (filter p l)) <-> exists a, In a l /\ p a = true /\ b = f a.
Proof.
  rewrite in_map_iff. split.
  - intros (a & <- & Hin). apply filter_In in Hin. exists a. tauto.
  - intros (a & Hin & Hp & ->). exists a. split; [ reflexivity | ].
    apply filter_In. tauto.
Qed.

(** C6.  Handed a dynamic symbol, the export view invokes the callback
    exactly when the symbol's section index is not SHN_UNDEF, its type is
    STT_FUNC or STT_OBJECT and its binding is STB_GLOBAL or STB_WEAK; a
    local symbol never reaches it.  Over the whole table (the symbols
    the dynamic-symbol enumerator walks, [dynamic_symbols]) the callback
    receives, in order and until it says stop, the records of the
    symbols that satisfy this; when it never stops, a record is delivered
    if and only if it is the record of such a symbol. *)
Theorem exports_classification {U : Type} (host : PointerSize) (mem : Memory)
  (self : GumElfModule) (func : GumExportDetails -> U -> bool * U) (u : U) :
  (forall s, is_export s ->
     export_calls func u s = [(export_of s, fst (func (export_of s) u))]) /\
  (forall s, ~ is_export s -> export_calls func u s = []) /\
  (forall s, sym_bind s = STB_LOCAL -> export_calls func u s = []) /\
  gum_elf_module_enumerate_exports host mem self (recording func) ([], u) =
    deliver (recording func)
      (map export_of (filter is_exportb (dynamic_symbols host mem self))) ([], u) /\
  ((forall d u', fst (func d u') = true) ->
   forall e,
     In e (map fst (fst (gum_elf_module_enumerate_exports host mem self
                           (recording func) ([], u)))) <->
     exists s, In s (dynamic_symbols host mem self) /\ is_export s /\ e = export_of s).
Proof.
  assert (Hno : forall s, ~ is_export s -> export_calls func u s = []).
  { intros s Hs. unfold export_calls. rewrite emit_elf_export_eq.
    destruct (is_exportb s) eqn:Hb; [ | reflexivity ].
    apply is_exportb_spec in Hb. contradiction. }
  split; [ | split; [ exact Hno | split; [ | split ] ] ].
  - intros s Hs. apply is_exportb_spec in Hs.
    unfold export_calls. rewrite emit_elf_export_eq, Hs. simpl.
    unfold recording. simpl. destruct (func (export_of s) u); reflexivity.
  - intros s Hlocal. apply Hno. intros (_ & _ & [Hbind | Hbind]);
      rewrite Hlocal in Hbind; discriminate Hbind.
  - apply enumerate_exports_deliver.
  - intros Hgo e. rewrite enumerate_exports_deliver, deliver_recording. simpl.
    rewrite (run_log_never_stops func _ u Hgo), in_filtered_table.
    split; intros (s & Hin & Hs & He); exists s; repeat split; try assumption;
      apply is_exportb_spec; exact Hs.
Qed.

(** C7.  Handed a dynamic symbol, the import view invokes the callback
    exactly when the symbol's section index is SHN_UNDEF and its type is
    STT_FUNC or STT_OBJECT.  Over the whole table (the symbols the
    dynamic-symbol enumerator walks, [dynamic_symbols]) the callback
    receives, in order and until it says stop, the records of the
    symbols that satisfy this; when it never stops, a record is delivered
    if and only if it is the record of such a symbol.  Every record
    delivered has address zero and a null module. *)
Theorem imports_classification {U : Type} (host : PointerSize) (mem : Memory)
  (self : GumElfModule) (func : GumImportDetails -> U -> bool * U) (u : U) :
  (forall s, is_import s ->
     import_calls func u s = [(import_of s, fst (func (import_of s) u))]) /\
  (forall s, ~ is_import s -> import_calls func u s = []) /\
  gum_elf_module_enumerate_imports host mem self (recording func) ([], u) =
    deliver (recording func)
      (map import_of (filter is_importb (dynamic_symbols host mem self))) ([], u) /\
  ((forall d u', fst (func d u') = true) ->
   forall i,
     In i (map fst (fst (gum_elf_module_enumerate_imports host mem self
                           (recording func) ([], u)))) <->
     exists s, In s (dynamic_symbols host mem self) /\ is_import s /\ i = import_of s) /\
  (forall i v,
     In (i, v) (fst (gum_elf_module_enumerate_imports host mem self
                       (recording func) ([], u))) ->
     import_address i = 0 /\ import_module i = NULL).
Proof.
  split; [ | split; [ | split; [ | split ] ] ].
  - intros s Hs. apply is_importb_spec in Hs.
    unfold import_calls. rewrite emit_elf_import_eq, Hs. simpl.
    unfold recording. simpl. destruct (func (import_of s) u); reflexivity.
  - intros s Hs. unfold import_calls. rewrite emit_elf_import_eq.
    destruct (is_importb s) eqn:Hb; [ | reflexivity ].
    apply is_importb_spec in Hb. contradiction.
  - apply enumerate_imports_deliver.
  - intros Hgo i. rewrite enumerate_imports_deliver, deliver_recording. simpl.
    rewrite (run_log_never_stops func _ u Hgo), in_filtered_table.
    split; intros (s & Hin & Hs & Hi); exists s; repeat split; try assumption;
      apply is_importb_spec; exact Hs.
  - intros i v. rewrite enumerate_imports_deliver, deliver_recording. simpl.
    intros Hin. apply logged_record_in_table in Hin.
    apply in_map_iff in Hin. destruct Hin as (s & <- & _).
    split; reflexivity.
Qed.

Lemma exports_classification_witness :
  is_export Fixture.gum_init_symbol /\
  ~ is_export Fixture.malloc_symbol /\
  sym_bind Fixture.helper_symbol = STB_LOCAL /\
  export_calls Fixture.count_on O Fixture.gum_init_symbol =
    [(export_of Fixture.gum_init_symbol, true)] /\
  export_calls Fixture.count_on O Fixture.malloc_symbol = [] /\
  export_calls Fixture.count_on O Fixture.helper_symbol = [] /\
  In (export_of Fixture.gum_init_symbol)
     (map fst (fst (gum_elf_module_enumerate_exports Ptr64 Fixture.libgum_mem
                      Fixture.libgum (recording Fixture.count_on) ([], O)))).
Proof.
  destruct (exports_classification Ptr64 Fixture.libgum_mem Fixture.libgum
              Fixture.count_on O) as (Hyes & Hno & Hlocal & _ & Hall).
  assert (Hinit : is_export Fixture.gum_init_symbol).
  { split; [ vm_compute; discriminate | split; left; reflexivity ]. }
  assert (Hmalloc : ~ is_export Fixture.malloc_symbol).
  { intros [Hdefined _]. apply Hdefined. reflexivity. }
  split; [ exact Hinit | split; [ exact Hmalloc | split; [ reflexivity | ] ] ].
  split; [ exact (Hyes _ Hinit) | ].
  split; [ exact (Hno _ Hmalloc) | ].
  split; [ exact (Hlocal Fixture.helper_symbol eq_refl) | ].
  apply (proj2 (Hall (fun _ _ => eq_refl) (export_of Fixture.gum_init_symbol))).
  exists Fixture.gum_init_symbol. split; [ | split; [ exact Hinit | reflexivity ] ].
  vm_compute. right. left. reflexivity.
Defined.

Lemma imports_classification_witness :
  is_import Fixture.malloc_symbol /\
  ~ is_import Fixture.gum_init_symbol /\
  import_calls Fixture.count_on O Fixture.malloc_symbol =
    [(import_of Fixture.malloc_symbol, true)] /\
  import_calls Fixture.count_on O Fixture.gum_init_symbol = [] /\
  In (import_of Fixture.malloc_symbol)
     (map fst (fst (gum_elf_module_enumerate_imports Ptr64 Fixture.libgum_mem
                      Fixture.libgum (recording Fixture.count_on) ([], O)))) /\
  import_address (import_of Fixture.malloc_symbol) = 0 /\
  import_module (import_of Fixture.malloc_symbol) = NULL.
Proof.
  destruct (imports_classification Ptr64 Fixture.libgum_mem Fixture.libgum
              Fixture.count_on O) as (Hyes & Hno & _ & Hall & Hblank).
  assert (Hmalloc : is_import Fixture.malloc_symbol).
  { split; [ reflexivity | left; reflexivity ]. }
  assert (Hinit : ~ is_import Fixture.gum_init_symbol).
  { intros [Hundefined _]. vm_compute in Hundefined. discriminate Hundefined. }
  split; [ exact Hmalloc | split; [ exact Hinit | ] ].
  split; [ exact (Hyes _ Hmalloc) | ].
  split; [ exact (Hno _ Hinit) | ].
  split.
  - apply (proj2 (Hall (fun _ _ => eq_refl) (import_of Fixture.malloc_symbol))).
    exists Fixture.malloc_symbol. split; [ | split; [ exact Hmalloc | reflexivity ] ].
    vm_compute. left. reflexivity.
  - refine (Hblank (import_of Fixture.malloc_symbol) true _).
    vm_compute. left. reflexivity.
Defined.

(** ** Dependencies *)

Lemma deliver_store_strtab {U : Type} (host : PointerSize)
  (l : list GumElfDynamicEntryDetails) (ctx : GumElfEnumerateDepsContext U) :
  deliver (gum_store_strtab host) l ctx =
  match find is_strtab l with
  | None => ctx
  | Some s =>
      {| deps_func := deps_func _ ctx;
         deps_user_data := deps_user_data _ ctx;
         deps_module := deps_module _ ctx;
         deps_strtab := GSIZE_TO_POINTER host
           (gum_elf_module_resolve_virtual_address (deps_module _ ctx) (dyn_value s)) |}
  end.
Proof.
  induction l as [| d l IH]; simpl; [ reflexivity | ].
  unfold gum_store_strtab at 1. unfold is_strtab at 1.
  destruct (dyn_type d =? DT_STRTAB); simpl; [ reflexivity | exact IH ].
Qed.

Lemma run_log_store_strtab {U : Type} (host : PointerSize)
  (l : list GumElfDynamicEntryDetails) (ctx : GumElfEnumerateDepsContext U) :
  map fst (run_log (gum_store_strtab host) l ctx) = up_to_first is_strtab l.
Proof.
  induction l as [| d l IH]; simpl; [ reflexivity | ].
  unfold gum_store_strtab at 1. unfold is_strtab at 1.
  destruct (dyn_type d =? DT_STRTAB); simpl; f_equal. exact IH.
Qed.

Lemma deliver_emit_each_needed {U : Type} (host : PointerSize)
  (func : GumElfDependencyDetails -> U -> bool * U) (self : GumElfModule)
  (strtab : Z) (l : list GumElfDynamicEntryDetails) (u : U) :
  deps_user_data _
    (deliver (gum_emit_each_needed host) l
       {| deps_func := func; deps_user_data := u;
          deps_module := self; deps_strtab := strtab |})
  = deliver func (needed_records host strtab l) u.
Proof.
  revert u. induction l as [| d l IH]; intros u; simpl; [ reflexivity | ].
  unfold gum_emit_each_needed at 1. unfold needed_records, is_needed at 1. simpl.
  fold is_needed. destruct (dyn_type d =? DT_NEEDED); simpl.
  - destruct (func _ u) as [carry_on u']. destruct carry_on; [ apply IH | reflexivity ].
  - apply IH.
Qed.

Lemma enumerate_dependencies_deliver {U : Type} (host : PointerSize) (mem : Memory)
  (self : GumElfModule) (func : GumElfDependencyDetails -> U -> bool * U) (u : U) :
  gum_elf_module_enumerate_dependencies host mem self func u =
  if captured_strtab host mem self =? NULL then u
  else deliver func
         (needed_records host (captured_strtab host mem self)
            (dynamic_entries host mem self)) u.
Proof.
  unfold gum_elf_module_enumerate_dependencies, captured_strtab.
  rewrite !enumerate_dynamic_entries_deliver, deliver_store_strtab.
  destruct (find is_strtab (dynamic_entries host mem self)) as [s |]; simpl.
  - destruct (_ =? NULL); [ reflexivity | ].
    apply deliver_emit_each_needed.
  - reflexivity.
Qed.

(** C8, as worded: the image [Fixture.nullstr] has two DT_NEEDED entries and a
    DT_STRTAB entry whose address resolves to the null pointer; the
    guard on the captured pointer then ends the enumeration with no
    record. *)
Lemma dependencies_null_strtab :
  ~ dependencies_as_specified Ptr64 Fixture.nullstr_mem Fixture.nullstr.
Proof.
  intros Hspec.
  specialize (Hspec (fun _ u => (true, u)) (fun _ _ => eq_refl)).
  vm_compute in Hspec. discriminate Hspec.
Qed.

(** C8, amended.  The dependency enumeration first walks the dynamic
    entries up to and including the first DT_STRTAB entry and keeps the
    resolved pointer of that entry.  When there is no such entry, or
    when its pointer is null, no dependency is produced.  Otherwise a
    second pass hands the callback, in on-disk order and until it says
    stop, one record per DT_NEEDED entry, whose name points [value]
    bytes into the captured string table. *)
Theorem dependencies_in_order {U : Type} (host : PointerSize) (mem : Memory)
  (self : GumElfModule) (func : GumElfDependencyDetails -> U -> bool * U) (u : U) :
  let table := dynamic_entries host mem self in
  let strtab := captured_strtab host mem self in
  let first_pass :=
    gum_elf_module_enumerate_dynamic_entries host mem self
      (recording (gum_store_strtab host)) ([], deps_context_init self func u) in
  map fst (fst first_pass) = up_to_first is_strtab table /\
  deps_strtab _ (snd first_pass) = strtab /\
  (find is_strtab table = None ->
   gum_elf_module_enumerate_dependencies host mem self (recording func) ([], u)
     = ([], u)) /\
  (strtab = NULL ->
   gum_elf_module_enumerate_dependencies host mem self (recording func) ([], u)
     = ([], u)) /\
  (strtab <> NULL ->
   gum_elf_module_enumerate_dependencies host mem self (recording func) ([], u)
     = deliver (recording func) (needed_records host strtab table) ([], u)) /\
  (strtab <> NULL -> (forall d u', fst (func d u') = true) ->
   map fst (fst (gum_elf_module_enumerate_dependencies host mem self
                   (recording func) ([], u)))
     = needed_records host strtab table).
Proof.
  intros table strtab first_pass.
  assert (Hnull : strtab = NULL ->
            gum_elf_module_enumerate_dependencies host mem self (recording func) ([], u)
              = ([], u)).
  { intros Hstr. rewrite enumerate_dependencies_deliver.
    fold strtab. rewrite Hstr. reflexivity. }
  assert (Hsome : strtab <> NULL ->
            gum_elf_module_enumerate_dependencies host mem self (recording func) ([], u)
              = deliver (recording func) (needed_records host strtab table) ([], u)).
  { intros Hstr. rewrite enumerate_dependencies_deliver. fold strtab table.
    apply Z.eqb_neq in Hstr. rewrite Hstr. reflexivity. }
  repeat split.
  - unfold first_pass. rewrite enumerate_dynamic_entries_deliver, deliver_recording.
    simpl. apply run_log_store_strtab.
  - unfold first_pass. rewrite enumerate_dynamic_entries_deliver, deliver_recording.
    simpl. rewrite deliver_store_strtab. unfold strtab, captured_strtab. fold table.
    destruct (find is_strtab table); reflexivity.
  - intros Hnone. apply Hnull. unfold strtab, captured_strtab. fold table.
    rewrite Hnone. reflexivity.
  - exact Hnull.
  - exact Hsome.
  - intros Hstr Hgo. rewrite (Hsome Hstr), deliver_recording. simpl.
    apply run_log_never_stops. exact Hgo.
Qed.

(** The scenario of the specification: NEEDED libc.so.6, NEEDED
    libm.so.6, STRTAB 0x2000 yield the two names in that order. *)
Lemma dependencies_in_order_witness :
  captured_strtab Ptr64 Fixture.libgum_mem Fixture.libgum
    = Fixture.runtime_base + 0x2000 /\
  map (fun d => c_string Fixture.libgum_mem 64 (dep_name d))
      (map fst (fst (gum_elf_module_enumerate_dependencies Ptr64 Fixture.libgum_mem
                       Fixture.libgum (recording Fixture.count_on) ([], O))))
    = ["libc.so.6"%string; "libm.so.6"%string].
Proof.
  assert (Hstr : captured_strtab Ptr64 Fixture.libgum_mem Fixture.libgum <> NULL).
  { vm_compute. discriminate. }
  destruct (dependencies_in_order Ptr64 Fixture.libgum_mem Fixture.libgum
              Fixture.count_on O) as (_ & _ & _ & _ & _ & Horder).
  split; [ vm_compute; reflexivity | ].
  rewrite (Horder Hstr (fun _ _ => eq_refl)).
  vm_compute. reflexivity.
Defined.

(** ** The parameters of the dynamic symbol table *)

Lemma store_symtab_params_pending (host : PointerSize) (mem : Memory)
  (d : GumElfDynamicEntryDetails) (ctx : GumElfStoreSymtabParamsContext) :
  pending (snd (gum_store_symtab_params host mem d ctx)) =
    (if is_symtab_param d then to_guint32 (pending ctx - 1) else pending ctx) /\
  fst (gum_store_symtab_params host mem d ctx) =
    negb (pending (snd (gum_store_symtab_params host mem d ctx)) =? 0).
Proof.
  unfold gum_store_symtab_params, is_symtab_param. simpl.
  destruct (dyn_type d =? DT_SYMTAB); simpl; [ split; reflexivity | ].
  destruct (dyn_type d =? DT_SYMENT); simpl; [ split; reflexivity | ].
  destruct (dyn_type d =? DT_HASH); simpl; [ split; reflexivity | ].
  destruct (dyn_type d =? DT_STRTAB); simpl; split; reflexivity.
Qed.

(** While fewer counted entries have gone by than values are pending,
    the counter is the number still missing. *)
Lemma pending_after (host : PointerSize) (mem : Memory)
  (l : list GumElfDynamicEntryDetails) (ctx : GumElfStoreSymtabParamsContext) :
  pending ctx <= 4 ->
  Z.of_nat (List.length (filter is_symtab_param l)) < pending ctx ->
  pending (deliver (gum_store_symtab_params host mem) l ctx) =
  pending ctx - Z.of_nat (List.length (filter is_symtab_param l)).
Proof.
  revert ctx. induction l as [| d l IH]; intros ctx Hmax Hcount;
    cbn [deliver filter] in *.
  - simpl. lia.
  - destruct (store_symtab_params_pending host mem d ctx) as [Hpending Hverdict].
    destruct (gum_store_symtab_params host mem d ctx) as [carry_on ctx'].
    cbn [fst snd] in Hpending, Hverdict.
    assert (Hgo : carry_on = true).
    { rewrite Hverdict, Hpending. apply negb_true_iff, Z.eqb_neq.
      destruct (is_symtab_param d); cbn [List.length] in Hcount;
        [ rewrite to_guint32_small by lia | ]; lia. }
    subst carry_on. rewrite Hgo.
    destruct (is_symtab_param d); cbn [List.length] in Hcount |- *.
    + rewrite to_guint32_small in Hpending by lia.
      rewrite IH by lia. lia.
    + rewrite IH by lia. lia.
Qed.

Lemma symtab_param_count (l : list GumElfDynamicEntryDetails) :
  List.length (filter is_symtab_param l) =
  (tag_count DT_SYMTAB l + tag_count DT_SYMENT l +
   tag_count DT_HASH l + tag_count DT_STRTAB l)%nat.
Proof.
  unfold tag_count. induction l as [| d l IH]; simpl; [ reflexivity | ].
  unfold is_symtab_param at 1.
  destruct (Z.eqb_spec (dyn_type d) DT_SYMTAB) as [H1 | H1];
    destruct (Z.eqb_spec (dyn_type d) DT_SYMENT) as [H2 | H2];
    destruct (Z.eqb_spec (dyn_type d) DT_HASH) as [H3 | H3];
    destruct (Z.eqb_spec (dyn_type d) DT_STRTAB) as [H4 | H4];
    simpl; rewrite ?IH; try lia;
    exfalso; unfold DT_SYMTAB, DT_SYMENT, DT_HASH, DT_STRTAB in *; lia.
Qed.

(** X15.  On a dynamic section that carries none of the four tags more than
    once, a missing tag leaves the counter above zero and the symbol
    enumeration delivers nothing. *)
Lemma dynamic_symbols_need_all_four {U : Type} (host : PointerSize) (mem : Memory)
  (self : GumElfModule) (func : GumElfSymbolDetails -> U -> bool * U) (u : U)
  (missing : Z) :
  let table := dynamic_entries host mem self in
  (tag_count DT_SYMTAB table <= 1)%nat ->
  (tag_count DT_SYMENT table <= 1)%nat ->
  (tag_count DT_HASH table <= 1)%nat ->
  (tag_count DT_STRTAB table <= 1)%nat ->
  In missing [DT_SYMTAB; DT_SYMENT; DT_HASH; DT_STRTAB] ->
  tag_count missing table = O ->
  gum_elf_module_enumerate_dynamic_symbols host mem self (recording func) ([], u)
    = ([], u).
Proof.
  intros table H1 H2 H3 H4 Hin Hmissing.
  unfold gum_elf_module_enumerate_dynamic_symbols.
  rewrite enumerate_dynamic_entries_deliver. fold table.
  rewrite pending_after; simpl pending.
  - rewrite symtab_param_count.
    assert (Hfew : (tag_count DT_SYMTAB table + tag_count DT_SYMENT table +
                    tag_count DT_HASH table + tag_count DT_STRTAB table <= 3)%nat).
    { simpl in Hin. destruct Hin as [<- | [<- | [<- | [<- | []]]]]; lia. }
    destruct (4 - _ =? 0) eqn:Hzero; [ apply Z.eqb_eq in Hzero; lia | reflexivity ].
  - lia.
  - rewrite symtab_param_count.
    simpl in Hin. destruct Hin as [<- | [<- | [<- | [<- | []]]]]; lia.
Qed.

(** C4 at a dynamic section that names DT_SYMTAB twice and DT_STRTAB
    never: the counter reaches zero on DT_SYMTAB, DT_SYMTAB, DT_SYMENT,
    DT_HASH, and the three symbols of the table are delivered with names
    taken from a null string table. *)
Theorem symtab_params_counted_twice :
  tag_count DT_STRTAB (dynamic_entries Ptr64 Fixture.twice_mem Fixture.twice) = O /\
  map (fun r => sym_name (fst r))
      (fst (gum_elf_module_enumerate_dynamic_symbols Ptr64 Fixture.twice_mem
              Fixture.twice (recording Fixture.count_on) ([], O)))
    = [21; 28; 37].
Proof. split; vm_compute; reflexivity. Qed.

(** * Further properties of the code *)

(** ** Address translation is invertible *)

(** X1.  On 64-bit addresses the translation is one-to-one, it is undone by
    translating back with the two base addresses exchanged, and it is
    the identity when the image sits at its preferred address. *)
Theorem resolve_virtual_address_bijective (self : GumElfModule) (a b : Z) :
  is_guint64 a -> is_guint64 b ->
  (gum_elf_module_resolve_virtual_address self a =
   gum_elf_module_resolve_virtual_address self b -> a = b) /\
  to_guint64 (preferred_address self +
              to_guint64 (gum_elf_module_resolve_virtual_address self a
                          - base_address self)) = a /\
  (base_address self = preferred_address self ->
   gum_elf_module_resolve_virtual_address self a = a).
Proof.
  unfold is_guint64. intros Ha Hb.
  rewrite !resolve_virtual_address_mod. unfold to_guint64.
  change (2 ^ 64) with 18446744073709551616 in *.
  repeat split.
  - intros Heq. Z.div_mod_to_equations. lia.
  - Z.div_mod_to_equations. lia.
  - intros Hsame. rewrite Hsame. Z.div_mod_to_equations. lia.
Qed.

Lemma resolve_virtual_address_bijective_witness :
  is_guint64 0x1020 /\ is_guint64 0x1100 /\
  (gum_elf_module_resolve_virtual_address Fixture.libgum 0x1020 =
   gum_elf_module_resolve_virtual_address Fixture.libgum 0x1100 -> 0x1020 = 0x1100) /\
  to_guint64 (preferred_address Fixture.libgum +
              to_guint64 (gum_elf_module_resolve_virtual_address Fixture.libgum 0x1020
                          - base_address Fixture.libgum)) = 0x1020 /\
  gum_elf_module_resolve_virtual_address Fixture.static_exe 0x401020 = 0x401020.
Proof.
  assert (H1 : is_guint64 0x1020)
    by (split; [ vm_compute; discriminate | vm_compute; reflexivity ]).
  assert (H2 : is_guint64 0x1100)
    by (split; [ vm_compute; discriminate | vm_compute; reflexivity ]).
  assert (H3 : is_guint64 0x401020)
    by (split; [ vm_compute; discriminate | vm_compute; reflexivity ]).
  split; [ exact H1 | split; [ exact H2 | ] ].
  destruct (resolve_virtual_address_bijective Fixture.libgum 0x1020 0x1100 H1 H2)
    as (Hinj & Hinv & _).
  split; [ exact Hinj | split; [ exact Hinv | ] ].
  exact (proj2 (proj2 (resolve_virtual_address_bijective Fixture.static_exe
                         0x401020 0x401020 H3 H3)) eq_refl).
Defined.

(** ** The locators return the first match *)

Lemma find_first_split {A : Type} (p : A -> bool) (l : list A) (x : A) :
  find p l = Some x ->
  exists before after,
    l = before ++ x :: after /\ p x = true /\ Forall (fun y => p y = false) before.
Proof.
  induction l as [| y l IH]; simpl; [ discriminate | ].
  destruct (p y) eqn:Hy.
  - intros Hsome. injection Hsome as <-.
    exists [], l. repeat split; [ exact Hy | constructor ].
  - intros Hsome. destruct (IH Hsome) as (before & after & -> & Hx & Hbefore).
    exists (y :: before), after. repeat split; [ exact Hx | ].
    constructor; assumption.
Qed.

Lemma find_none_iff {A : Type} (p : A -> bool) (l : list A) :
  find p l = None <-> Forall (fun y => p y = false) l.
Proof.
  induction l as [| y l IH]; simpl.
  - split; [ constructor | reflexivity ].
  - destruct (p y) eqn:Hy.
    + split; [ discriminate | ]. intros Hall. inversion Hall; congruence.
    + rewrite IH. split; intros Hall; [ constructor; assumption | ].
      inversion Hall; assumption.
Qed.

Lemma forall_eqb_false {A : Type} (f : A -> Z) (v : Z) (l : list A) :
  Forall (fun y => (f y =? v) = false) l <-> Forall (fun y => f y <> v) l.
Proof.
  rewrite !Forall_forall. split; intros H y Hin; apply Z.eqb_neq; apply (H y Hin).
Qed.

Lemma find_dynamic_range_scan (host : PointerSize) (self : GumElfModule) :
  gum_elf_module_find_dynamic_range host self =
  match find (fun ph => p_type ph =? PT_DYNAMIC) (program_headers self) with
  | Some ph => Some {| range_base_address := p_vaddr ph;
                       range_size := to_gsize host (p_memsz ph) |}
  | None => None
  end.
Proof.
  unfold gum_elf_module_find_dynamic_range, program_headers.
  destruct (ehdr self) as [h |]; [ | reflexivity ].
  destruct (elf self) as [e |]; [ | reflexivity ].
  apply find_dynamic_range_from_find; [ lia | apply header_count_fits ].
Qed.

(** X2.  The dynamic-segment locator finds nothing exactly when no program
    header is PT_DYNAMIC; otherwise its range is the virtual address and
    the memory size (cut to the host's [gsize]) of the first PT_DYNAMIC
    header, later ones being ignored. *)
Theorem find_dynamic_range_first (host : PointerSize) (self : GumElfModule) :
  (gum_elf_module_find_dynamic_range host self = None <->
   Forall (fun ph => p_type ph <> PT_DYNAMIC) (program_headers self)) /\
  (forall r, gum_elf_module_find_dynamic_range host self = Some r ->
     exists before ph after,
       program_headers self = before ++ ph :: after /\
       Forall (fun ph' => p_type ph' <> PT_DYNAMIC) before /\
       p_type ph = PT_DYNAMIC /\
       range_base_address r = p_vaddr ph /\
       range_size r = to_gsize host (p_memsz ph)).
Proof.
  rewrite find_dynamic_range_scan. split.
  - rewrite <- forall_eqb_false, <- find_none_iff.
    destruct (find _ _); split; intros H; try reflexivity; discriminate H.
  - intros r Hr.
    destruct (find _ _) as [ph |] eqn:Hfind; [ | discriminate Hr ].
    injection Hr as <-.
    destruct (find_first_split _ _ _ Hfind) as (before & after & Hsplit & Hph & Hbefore).
    exists before, ph, after. repeat split.
    + exact Hsplit.
    + apply forall_eqb_false. exact Hbefore.
    + apply Z.eqb_eq. exact Hph.
Qed.

Lemma find_dynamic_range_first_witness :
  gum_elf_module_find_dynamic_range Ptr64 Fixture.libgum
    = Some {| range_base_address := 0x1000; range_size := 112 |} /\
  exists before ph after,
    program_headers Fixture.libgum = before ++ ph :: after /\
    Forall (fun ph' => p_type ph' <> PT_DYNAMIC) before /\
    p_type ph = PT_DYNAMIC /\ p_vaddr ph = 0x1000.
Proof.
  assert (Hrange : gum_elf_module_find_dynamic_range Ptr64 Fixture.libgum
                   = Some {| range_base_address := 0x1000; range_size := 112 |})
    by (vm_compute; reflexivity).
  split; [ exact Hrange | ].
  destruct (proj2 (find_dynamic_range_first Ptr64 Fixture.libgum) _ Hrange)
    as (before & ph & after & Hsplit & Hbefore & Hph & Hbase & _).
  exists before, ph, after. repeat split; try assumption.
  symmetry. exact Hbase.
Defined.

Lemma find_section_header_from_find (scns : list Elf_Scn) (type : Z) :
  find_section_header_from scns type =
  match find (fun scn => sh_type (scn_shdr scn) =? type) scns with
  | Some scn => Some (scn, scn_shdr scn)
  | None => None
  end.
Proof.
  induction scns as [| cur rest IH]; simpl; [ reflexivity | ].
  unfold gelf_getshdr. destruct (sh_type (scn_shdr cur) =? type); [ reflexivity | exact IH ].
Qed.

(** X3.  The section-header locator returns the first section, in
    [elf_nextscn] order, whose header has the requested type, together
    with that header; it finds nothing exactly when no section has the
    type. *)
Theorem find_section_header_first (self : GumElfModule) (e : Elf) (type : Z) :
  elf self = Some e ->
  (gum_elf_module_find_section_header self type = None <->
   Forall (fun scn => sh_type (scn_shdr scn) <> type) (elf_scns e)) /\
  (forall scn shdr,
     gum_elf_module_find_section_header self type = Some (scn, shdr) ->
     shdr = scn_shdr scn /\ sh_type shdr = type /\
     exists before after,
       elf_scns e = before ++ scn :: after /\
       Forall (fun scn' => sh_type (scn_shdr scn') <> type) before).
Proof.
  intros He. unfold gum_elf_module_find_section_header. rewrite He.
  rewrite find_section_header_from_find. split.
  - rewrite <- (forall_eqb_false (fun scn => sh_type (scn_shdr scn))), <- find_none_iff.
    destruct (find _ _); split; intros H; try reflexivity; discriminate H.
  - intros scn shdr Hfound.
    destruct (find _ _) as [scn' |] eqn:Hfind; [ | discriminate Hfound ].
    injection Hfound as <- <-.
    destruct (find_first_split _ _ _ Hfind) as (before & after & Hsplit & Hty & Hbefore).
    split; [ reflexivity | split; [ apply Z.eqb_eq; exact Hty | ] ].
    exists before, after. split; [ exact Hsplit | ].
    apply (forall_eqb_false (fun scn => sh_type (scn_shdr scn))). exact Hbefore.
Qed.

Lemma find_section_header_first_witness :
  elf Fixture.libgum = Some Fixture.libgum_elf /\
  gum_elf_module_find_section_header Fixture.libgum 3
    = Some (Fixture.libgum_strtab_section, scn_shdr Fixture.libgum_strtab_section) /\
  exists before after,
    elf_scns Fixture.libgum_elf = before ++ Fixture.libgum_strtab_section :: after /\
    Forall (fun scn' => sh_type (scn_shdr scn') <> 3) before.
Proof.
  assert (Hfound : gum_elf_module_find_section_header Fixture.libgum 3
            = Some (Fixture.libgum_strtab_section, scn_shdr Fixture.libgum_strtab_section))
    by reflexivity.
  split; [ reflexivity | split; [ exact Hfound | ] ].
  exact (proj2 (proj2 (proj2 (find_section_header_first Fixture.libgum
                                Fixture.libgum_elf 3 eq_refl) _ _ Hfound))).
Defined.



(** ** The dynamic segment is walked to its end *)

Lemma nth_error_indices (n : nat) (first : Z) (k : nat) :
  (k < n)%nat -> nth_error (indices n first) k = Some (first + Z.of_nat k).
Proof.
  revert first k. induction n as [| n IH]; intros first k Hk; [ lia | ].
  destruct k as [| k]; simpl.
  - f_equal. lia.
  - rewrite IH by lia. f_equal. lia.
Qed.

(** X5.  With a dynamic segment, a callback that never stops receives
    [size / sizeof (Dyn)] entries (as a 32-bit count), the k-th decoded
    at the k-th slot from the resolved start of the segment.  No tag
    ends the walk: an entry is delivered whatever precedes it, DT_NULL
    included. *)
Theorem dynamic_entries_span (host : PointerSize) (mem : Memory)
  (self : GumElfModule) (dynamic : GumMemoryRange) :
  gum_elf_module_find_dynamic_range host self = Some dynamic ->
  let dynamic_begin :=
    GSIZE_TO_POINTER host
      (gum_elf_module_resolve_virtual_address self (range_base_address dynamic)) in
  let count := to_guint32 (range_size dynamic / sizeof_Dyn host) in
  List.length (dynamic_entries host mem self) = Z.to_nat count /\
  forall k, 0 <= k < count ->
    nth_error (dynamic_entries host mem self) (Z.to_nat k)
      = Some (read_Dyn host mem dynamic_begin k).
Proof.
  intros Hrange dynamic_begin count.
  assert (Htable : dynamic_entries host mem self =
                   map (read_Dyn host mem dynamic_begin) (indices (Z.to_nat count) 0)).
  { unfold dynamic_entries, gum_elf_module_enumerate_dynamic_entries.
    rewrite Hrange. unfold count, sizeof_Dyn, read_Dyn, dynamic_begin.
    destruct host;
      rewrite enumerate_from_deliver by apply guint32_loop_fits;
      rewrite deliver_keep_going; reflexivity. }
  rewrite Htable. split.
  - rewrite length_map, indices_length. reflexivity.
  - intros k Hk. rewrite nth_error_map, nth_error_indices by lia.
    simpl. f_equal. f_equal. lia.
Qed.

Lemma dynamic_entries_span_witness :
  gum_elf_module_find_dynamic_range Ptr64 Fixture.libgum
    = Some {| range_base_address := 0x1000; range_size := 112 |} /\
  List.length (dynamic_entries Ptr64 Fixture.libgum_mem Fixture.libgum) = 7%nat /\
  nth_error (dynamic_entries Ptr64 Fixture.libgum_mem Fixture.libgum) 6
    = Some {| dyn_type := DT_NULL; dyn_value := 0 |}.
Proof.
  assert (Hrange : gum_elf_module_find_dynamic_range Ptr64 Fixture.libgum
                   = Some {| range_base_address := 0x1000; range_size := 112 |})
    by (vm_compute; reflexivity).
  destruct (dynamic_entries_span Ptr64 Fixture.libgum_mem Fixture.libgum _ Hrange)
    as [Hlength Hnth].
  split; [ exact Hrange | split ].
  - rewrite Hlength. vm_compute. reflexivity.
  - change 6%nat with (Z.to_nat 6). rewrite Hnth.
    + vm_compute. reflexivity.
    + split; [ vm_compute; discriminate | vm_compute; reflexivity ].
Defined.

(** ** The symbol-table section *)

(** X6.  Without a section of type SHT_SYMTAB (a stripped image) the section
    path returns without a single callback.  With one whose header has a
    zero entry size it divides by zero before the first callback.  In
    every other case it returns normally. *)
Theorem enumerate_symbols_edges {U : Type} (self : GumElfModule)
  (func : GumElfSymbolDetails -> U -> bool * U) (u : U) :
  (gum_elf_module_find_section_header self SHT_SYMTAB = None ->
   gum_elf_module_enumerate_symbols self (recording func) ([], u) = Some ([], u)) /\
  (forall scn shdr,
     gum_elf_module_find_section_header self SHT_SYMTAB = Some (scn, shdr) ->
     (sh_entsize shdr = 0 <->
      gum_elf_module_enumerate_symbols self (recording func) ([], u) = None)).
Proof.
  unfold gum_elf_module_enumerate_symbols, gum_elf_module_enumerate_symbols_in_section.
  split.
  - intros ->. reflexivity.
  - intros scn shdr Hfound. rewrite Hfound.
    unfold gum_elf_module_find_section_header in Hfound.
    destruct (elf self) as [e |]; [ | discriminate Hfound ].
    destruct (Z.eqb_spec (sh_entsize shdr) 0) as [Hzero | Hnonzero].
    + split; [ reflexivity | intros _; exact Hzero ].
    + split; [ contradiction | discriminate ].
Qed.

Lemma enumerate_symbols_edges_witness :
  gum_elf_module_enumerate_symbols Fixture.static_exe
    (recording Fixture.count_on) ([], O) = Some ([], O) /\
  gum_elf_module_enumerate_symbols Fixture.zero_entsize
    (recording Fixture.count_on) ([], O) = None.
Proof.
  destruct (enumerate_symbols_edges Fixture.static_exe Fixture.count_on O)
    as [Hnone _].
  destruct (enumerate_symbols_edges Fixture.zero_entsize Fixture.count_on O)
    as [_ Hzero].
  split.
  - apply Hnone. reflexivity.
  - refine (proj1 (Hzero _ _ _) _); reflexivity.
Defined.

(** X7.  With a SHT_SYMTAB section of non-zero entry size, a callback that
    never stops receives [sh_size / sh_entsize] symbols (as a 32-bit
    count) starting with the one at index 0, which this path does not
    skip; each name comes from the string table the section links to and
    each address is the resolved symbol value. *)
Theorem section_symbols_table (self : GumElfModule) (e : Elf) (scn : Elf_Scn)
  (shdr : GElf_Shdr) :
  elf self = Some e ->
  gum_elf_module_find_section_header self SHT_SYMTAB = Some (scn, shdr) ->
  sh_entsize shdr <> 0 ->
  let count := to_guint32 (sh_size shdr / sh_entsize shdr) in
  section_symbols self
    = Some (map (section_symbol self e scn shdr) (indices (Z.to_nat count) 0)) /\
  (0 < count ->
   option_map (@hd_error _) (section_symbols self)
     = Some (Some (section_symbol self e scn shdr 0))).
Proof.
  intros He Hfound Hentsize count.
  assert (Htable : section_symbols self
            = Some (map (section_symbol self e scn shdr) (indices (Z.to_nat count) 0))).
  { unfold section_symbols, gum_elf_module_enumerate_symbols,
      gum_elf_module_enumerate_symbols_in_section.
    rewrite Hfound, He. apply Z.eqb_neq in Hentsize. rewrite Hentsize.
    rewrite enumerate_from_deliver by apply guint32_loop_fits.
    rewrite deliver_keep_going. reflexivity. }
  split; [ exact Htable | ].
  intros Hpos. rewrite Htable. simpl.
  destruct (Z.to_nat count) as [| n] eqn:Hn; [ lia | reflexivity ].
Qed.

Lemma section_symbols_table_witness :
  option_map (map (fun s => (sym_name s, sym_address s, section_header_index s)))
    (section_symbols Fixture.libgum)
  = Some [ (0x12000, Fixture.runtime_base, 0);
           (0x12001, Fixture.runtime_base + 0x1020, 7);
           (0x1200a, Fixture.runtime_base + 0x1100, 7) ].
Proof.
  destruct (section_symbols_table Fixture.libgum Fixture.libgum_elf
              Fixture.libgum_symtab_section
              (scn_shdr Fixture.libgum_symtab_section) eq_refl eq_refl) as [Htable _].
  - vm_compute. discriminate.
  - rewrite Htable. vm_compute. reflexivity.
Defined.

(** ** The derived views honour the stop signal *)

Lemma halts_at_stop_nil {D : Type} : halts_at_stop (@nil (D * bool)).
Proof.
  split.
  - intros d rest H. discriminate H.
  - intros before d after H. destruct before; discriminate H.
Qed.

(** X8.  In the logs of the dependency, import and export enumerations a stop
    verdict is the last entry: once the caller's callback says stop, no
    further dependency, import or export is delivered. *)
Theorem views_halt_at_stop {U : Type} (host : PointerSize) (mem : Memory)
  (self : GumElfModule)
  (on_dependency : GumElfDependencyDetails -> U -> bool * U)
  (on_import : GumImportDetails -> U -> bool * U)
  (on_export : GumExportDetails -> U -> bool * U) (u : U) :
  halts_at_stop (fst (gum_elf_module_enumerate_dependencies host mem self
                        (recording on_dependency) ([], u))) /\
  halts_at_stop (fst (gum_elf_module_enumerate_imports host mem self
                        (recording on_import) ([], u))) /\
  halts_at_stop (fst (gum_elf_module_enumerate_exports host mem self
                        (recording on_export) ([], u))).
Proof.
  split; [ | split ].
  - rewrite enumerate_dependencies_deliver.
    destruct (_ =? NULL); [ apply halts_at_stop_nil | ].
    rewrite deliver_recording. apply run_log_halts_at_stop.
  - rewrite enumerate_imports_deliver, deliver_recording. apply run_log_halts_at_stop.
  - rewrite enumerate_exports_deliver, deliver_recording. apply run_log_halts_at_stop.
Qed.

Lemma views_halt_at_stop_witness :
  List.length (needed_records Ptr64
                 (captured_strtab Ptr64 Fixture.libgum_mem Fixture.libgum)
                 (dynamic_entries Ptr64 Fixture.libgum_mem Fixture.libgum)) = 2%nat /\
  List.length (fst (gum_elf_module_enumerate_dependencies Ptr64 Fixture.libgum_mem
                      Fixture.libgum (recording Fixture.stop_at_once) ([], O))) = 1%nat.
Proof.
  destruct (views_halt_at_stop Ptr64 Fixture.libgum_mem Fixture.libgum
              Fixture.stop_at_once Fixture.stop_at_once Fixture.stop_at_once O)
    as [[Hfirst _] _].
  split; [ vm_compute; reflexivity | ].
  eapply Hfirst. vm_compute. reflexivity.
Defined.

(** ** Imports and exports do not overlap *)

Lemma import_calls_nil {U : Type} (func : GumImportDetails -> U -> bool * U) (u : U)
  (s : GumElfSymbolDetails) :
  import_calls func u s = [] <-> is_importb s = false.
Proof.
  unfold import_calls. rewrite emit_elf_import_eq.
  destruct (is_importb s); simpl.
  - unfold recording. simpl. destruct (func (import_of s) u).
    split; discriminate.
  - split; reflexivity.
Qed.

Lemma export_calls_nil {U : Type} (func : GumExportDetails -> U -> bool * U) (u : U)
  (s : GumElfSymbolDetails) :
  export_calls func u s = [] <-> is_exportb s = false.
Proof.
  unfold export_calls. rewrite emit_elf_export_eq.
  destruct (is_exportb s); simpl.
  - unfold recording. simpl. destruct (func (export_of s) u).
    split; discriminate.
  - split; reflexivity.
Qed.

(** X9.  No symbol is handed to both an import callback and an export
    callback.  A function or object symbol bound globally or weakly is
    handed to exactly one of them, by whether its section index is
    SHN_UNDEF; an undefined function or object symbol is an import
    whatever its binding. *)
Theorem import_export_exclusive {U V : Type}
  (on_import : GumImportDetails -> U -> bool * U)
  (on_export : GumExportDetails -> V -> bool * V) (u : U) (v : V)
  (s : GumElfSymbolDetails) :
  (import_calls on_import u s = [] \/ export_calls on_export v s = []) /\
  ((sym_type s = STT_FUNC \/ sym_type s = STT_OBJECT) ->
   (sym_bind s = STB_GLOBAL \/ sym_bind s = STB_WEAK) ->
   (section_header_index s = SHN_UNDEF ->
      import_calls on_import u s <> [] /\ export_calls on_export v s = []) /\
   (section_header_index s <> SHN_UNDEF ->
      import_calls on_import u s = [] /\ export_calls on_export v s <> [])) /\
  ((sym_type s = STT_FUNC \/ sym_type s = STT_OBJECT) ->
   section_header_index s = SHN_UNDEF ->
   import_calls on_import u s <> []).
Proof.
  rewrite import_calls_nil, export_calls_nil.
  unfold is_importb, is_exportb.
  split; [ | split ].
  - destruct (section_header_index s =? SHN_UNDEF); simpl; auto.
  - intros Htype Hbind.
    assert (Ht : (sym_type s =? STT_FUNC) || (sym_type s =? STT_OBJECT) = true)
      by (apply orb_true_iff; rewrite !Z.eqb_eq; exact Htype).
    assert (Hb : (sym_bind s =? STB_GLOBAL) || (sym_bind s =? STB_WEAK) = true)
      by (apply orb_true_iff; rewrite !Z.eqb_eq; exact Hbind).
    rewrite Ht, Hb. split; intros Hndx.
    + apply Z.eqb_eq in Hndx. rewrite Hndx. simpl. split; [ discriminate | reflexivity ].
    + apply Z.eqb_neq in Hndx. rewrite Hndx. simpl. split; [ reflexivity | discriminate ].
  - intros Htype Hndx.
    assert (Ht : (sym_type s =? STT_FUNC) || (sym_type s =? STT_OBJECT) = true)
      by (apply orb_true_iff; rewrite !Z.eqb_eq; exact Htype).
    apply Z.eqb_eq in Hndx. rewrite Ht, Hndx. simpl. discriminate.
Qed.

Lemma import_export_exclusive_witness :
  (import_calls Fixture.count_on O Fixture.malloc_symbol <> [] /\
   export_calls Fixture.count_on O Fixture.malloc_symbol = []) /\
  (import_calls Fixture.count_on O Fixture.gum_init_symbol = [] /\
   export_calls Fixture.count_on O Fixture.gum_init_symbol <> []).
Proof.
  split.
  - refine (proj1 (proj1 (proj2 (import_export_exclusive Fixture.count_on
              Fixture.count_on O O Fixture.malloc_symbol)) _ _) _).
    + left. reflexivity.
    + left. reflexivity.
    + reflexivity.
  - refine (proj2 (proj1 (proj2 (import_export_exclusive Fixture.count_on
              Fixture.count_on O O Fixture.gum_init_symbol)) _ _) _).
    + left. reflexivity.
    + left. reflexivity.
    + vm_compute. discriminate.
Defined.

(** ** What construction guarantees *)

Section ConstructionOutcome.

Variable map_file : string -> FileOutcome.
Variable elf_memory : list Z -> option Elf.
Variable g_path_get_basename : string -> string.

Let constructed := gum_elf_module_constructed map_file elf_memory g_path_get_basename.
Let new_from_memory := gum_elf_module_new_from_memory map_file elf_memory g_path_get_basename.

(** X10.  The constructor returns a module exactly when the file can be
    mapped, libelf accepts it and its type is ET_EXEC or ET_DYN; a file
    that cannot be opened or mapped, or that libelf rejects, yields
    none.  The module returned is valid, keeps the path and the base
    address it was given, is named after the basename of the path, and
    holds the mapping, its length and the parsed handle. *)
Theorem new_from_memory_outcome (path' : string) (base : GumAddress) :
  (forall module, new_from_memory path' base = Some module ->
     exists data e,
       map_file path' = file_mapped data /\ elf_memory data = Some e /\
       (e_type (elf_ehdr e) = ET_EXEC \/ e_type (elf_ehdr e) = ET_DYN) /\
       valid module = true /\
       name module = Some (g_path_get_basename path') /\
       path module = path' /\
       file_data module = Some data /\
       file_size module = Z.of_nat (List.length data) /\
       elf module = Some e /\ ehdr module = Some (elf_ehdr e) /\
       base_address module = base) /\
  (forall data e,
     map_file path' = file_mapped data -> elf_memory data = Some e ->
     e_type (elf_ehdr e) = ET_EXEC \/ e_type (elf_ehdr e) = ET_DYN ->
     new_from_memory path' base <> None) /\
  (map_file path' = open_failed -> new_from_memory path' base = None) /\
  (forall size, map_file path' = mmap_failed size -> new_from_memory path' base = None) /\
  (forall data, map_file path' = file_mapped data -> elf_memory data = None ->
     new_from_memory path' base = None).
Proof.
  unfold new_from_memory, gum_elf_module_new_from_memory, gum_elf_module_constructed.
  simpl. unfold gelf_getehdr.
  split; [ | split; [ | split; [ | split ] ] ].
  - intros module.
    destruct (map_file path') as [| size | data] eqn:Hmap; simpl; try discriminate.
    destruct (elf_memory data) as [e |] eqn:Hparse; simpl; try discriminate.
    destruct (Z.eqb_spec (e_type (elf_ehdr e)) ET_EXEC) as [Hexec | Hexec];
      [ | destruct (Z.eqb_spec (e_type (elf_ehdr e)) ET_DYN) as [Hdyn | Hdyn] ];
      simpl; try discriminate;
      intros Hsome; injection Hsome as <-;
      exists data, e; simpl; repeat split; auto.
  - intros data e -> -> Htype. simpl.
    destruct (Z.eqb_spec (e_type (elf_ehdr e)) ET_EXEC) as [Hexec | Hexec];
      [ | destruct (Z.eqb_spec (e_type (elf_ehdr e)) ET_DYN) as [Hdyn | Hdyn] ];
      simpl; try discriminate.
    destruct Htype; contradiction.
  - intros ->. reflexivity.
  - intros size ->. reflexivity.
  - intros data -> ->. reflexivity.
Qed.

(** X11.  Finalising the object that construction leaves behind, whether it
    succeeded or not, unmaps the file exactly when [mmap] had succeeded,
    with the length that was mapped, and ends the libelf handle exactly
    when [elf_memory] had returned one; after a failed [open] or [mmap]
    neither call is made. *)
Theorem finalize_releases_what_was_acquired (path' : string) (base : GumAddress) :
  let module := constructed (gum_elf_module_init path' base) in
  (forall data size,
     In (munmap data size) (gum_elf_module_finalize module) <->
     map_file path' = file_mapped data /\ size = Z.of_nat (List.length data)) /\
  (forall e,
     In (elf_end e) (gum_elf_module_finalize module) <->
     exists data, map_file path' = file_mapped data /\ elf_memory data = Some e).
Proof.
  unfold constructed, gum_elf_module_constructed, gum_elf_module_finalize.
  simpl. unfold gelf_getehdr.
  destruct (map_file path') as [| size0 | data0]; simpl.
  - split.
    + intros data size. split; [ | intros [H _]; discriminate H ].
      intros [H | [H | []]]; discriminate H.
    + intros e. split; [ | intros (data & H & _); discriminate H ].
      intros [H | [H | []]]; discriminate H.
  - split.
    + intros data size. split; [ | intros [H _]; discriminate H ].
      intros [H | [H | []]]; discriminate H.
    + intros e. split; [ | intros (data & H & _); discriminate H ].
      intros [H | [H | []]]; discriminate H.
  - destruct (elf_memory data0) as [e0 |] eqn:Hparse; simpl.
    + destruct (negb (e_type (elf_ehdr e0) =? ET_EXEC) &&
                negb (e_type (elf_ehdr e0) =? ET_DYN)); simpl; split.
      * intros data size. split.
        -- intros [H | [H | [H | [H | []]]]]; try discriminate H.
           injection H as <- <-. split; reflexivity.
        -- intros [H ->]. injection H as <-. right. left. reflexivity.
      * intros e. split.
        -- intros [H | [H | [H | [H | []]]]]; try discriminate H.
           injection H as <-. exists data0. split; [ reflexivity | exact Hparse ].
        -- intros (data & H & He). injection H as <-.
           rewrite Hparse in He. injection He as <-. left. reflexivity.
      * intros data size. split.
        -- intros [H | [H | [H | [H | []]]]]; try discriminate H.
           injection H as <- <-. split; reflexivity.
        -- intros [H ->]. injection H as <-. right. left. reflexivity.
      * intros e. split.
        -- intros [H | [H | [H | [H | []]]]]; try discriminate H.
           injection H as <-. exists data0. split; [ reflexivity | exact Hparse ].
        -- intros (data & H & He). injection H as <-.
           rewrite Hparse in He. injection He as <-. left. reflexivity.
    + split.
      * intros data size. split.
        -- intros [H | [H | [H | []]]]; try discriminate H.
           injection H as <- <-. split; reflexivity.
        -- intros [H ->]. injection H as <-. left. reflexivity.
      * intros e. split.
        -- intros [H | [H | [H | []]]]; discriminate H.
        -- intros (data & H & He). injection H as <-.
           rewrite Hparse in He. discriminate He.
Qed.

End ConstructionOutcome.

Lemma new_from_memory_outcome_witness :
  Fixture.new_from_memory "/usr/lib/libgum.so" Fixture.runtime_base
    = Some Fixture.libgum_constructed /\
  name Fixture.libgum_constructed = Some "libgum.so"%string /\
  base_address Fixture.libgum_constructed = Fixture.runtime_base /\
  file_size Fixture.libgum_constructed = 5 /\
  Fixture.new_from_memory "/no/such/file" 0 = None /\
  Fixture.new_from_memory "/tmp/empty" 0 = None /\
  Fixture.new_from_memory "/tmp/notes.txt" 0 = None.
Proof.
  assert (Hnew : Fixture.new_from_memory "/usr/lib/libgum.so" Fixture.runtime_base
                 = Some Fixture.libgum_constructed).
  { apply new_from_memory_valid. vm_compute. reflexivity. }
  destruct (proj1 (new_from_memory_outcome Fixture.map_file Fixture.elf_memory
                     Fixture.g_path_get_basename "/usr/lib/libgum.so"
                     Fixture.runtime_base) _ Hnew)
    as (data & e & Hmap & _ & _ & _ & Hname & _ & _ & Hsize & _ & _ & Hbase).
  split; [ exact Hnew | ].
  split; [ rewrite Hname; vm_compute; reflexivity | ].
  split; [ exact Hbase | ].
  split.
  { rewrite Hsize. vm_compute in Hmap. injection Hmap as <-. reflexivity. }
  split; [ | split ].
  - apply (proj1 (proj2 (proj2 (new_from_memory_outcome Fixture.map_file
             Fixture.elf_memory Fixture.g_path_get_basename "/no/such/file" 0)))).
    reflexivity.
  - apply (proj1 (proj2 (proj2 (proj2 (new_from_memory_outcome Fixture.map_file
             Fixture.elf_memory Fixture.g_path_get_basename "/tmp/empty" 0)))) 0).
    reflexivity.
  - apply (proj2 (proj2 (proj2 (proj2 (new_from_memory_outcome Fixture.map_file
             Fixture.elf_memory Fixture.g_path_get_basename "/tmp/notes.txt" 0))))
             [0x68; 0x69]); reflexivity.
Defined.

Lemma finalize_releases_what_was_acquired_witness :
  In (munmap (Fixture.magic 4) 5)
     (gum_elf_module_finalize
        (gum_elf_module_constructed Fixture.map_file Fixture.elf_memory
           Fixture.g_path_get_basename (gum_elf_module_init "/tmp/object.o" 0))) /\
  In (elf_end Fixture.relocatable_elf)
     (gum_elf_module_finalize
        (gum_elf_module_constructed Fixture.map_file Fixture.elf_memory
           Fixture.g_path_get_basename (gum_elf_module_init "/tmp/object.o" 0))).
Proof.
  destruct (finalize_releases_what_was_acquired Fixture.map_file Fixture.elf_memory
              Fixture.g_path_get_basename "/tmp/object.o" 0) as [Hmap Hend].
  split.
  - apply (proj2 (Hmap (Fixture.magic 4) 5)). split; reflexivity.
  - apply (proj2 (Hend Fixture.relocatable_elf)).
    exists (Fixture.magic 4). split; reflexivity.
Defined.

(** ** The dynamic symbol table, when its four parameters are present *)

Lemma first_with_tag_absent (tag : Z) (l : list GumElfDynamicEntryDetails) :
  tag_count tag l = O -> first_with_tag tag l = None.
Proof.
  unfold tag_count, first_with_tag.
  induction l as [| d l IH]; simpl; [ reflexivity | ].
  destruct (dyn_type d =? tag); simpl; [ discriminate | exact IH ].
Qed.

Lemma tag_count_cons (tag : Z) (d : GumElfDynamicEntryDetails)
  (l : list GumElfDynamicEntryDetails) :
  tag_count tag (d :: l) =
  ((if (dyn_type d =? tag)%Z then 1 else 0) + tag_count tag l)%nat.
Proof. unfold tag_count. simpl. destruct (dyn_type d =? tag); reflexivity. Qed.

Lemma first_with_tag_cons (tag : Z) (d : GumElfDynamicEntryDetails)
  (l : list GumElfDynamicEntryDetails) :
  first_with_tag tag (d :: l) =
  if dyn_type d =? tag then Some d else first_with_tag tag l.
Proof. reflexivity. Qed.

(** Once the counter is at zero and no counted entry is left, the pass
    is over. *)
Lemma deliver_store_symtab_params_done (host : PointerSize) (mem : Memory)
  (l : list GumElfDynamicEntryDetails) (ctx : GumElfStoreSymtabParamsContext) :
  pending ctx = 0 -> List.length (filter is_symtab_param l) = O ->
  deliver (gum_store_symtab_params host mem) l ctx = ctx.
Proof.
  intros Hzero Hnone. destruct l as [| d l]; [ reflexivity | ].
  cbn [deliver filter] in *.
  destruct (is_symtab_param d) eqn:Hd; [ discriminate Hnone | ].
  unfold gum_store_symtab_params, is_symtab_param in *.
  destruct (dyn_type d =? DT_SYMTAB); [ discriminate Hd | ].
  destruct (dyn_type d =? DT_SYMENT); [ discriminate Hd | ].
  destruct (dyn_type d =? DT_HASH); [ discriminate Hd | ].
  destruct (dyn_type d =? DT_STRTAB); [ discriminate Hd | ].
  rewrite Hzero. reflexivity.
Qed.

Lemma symtab_params_from_cons (host : PointerSize) (mem : Memory)
  (d : GumElfDynamicEntryDetails) (l : list GumElfDynamicEntryDetails)
  (ctx : GumElfStoreSymtabParamsContext) :
  (tag_count DT_SYMTAB (d :: l) <= 1)%nat ->
  (tag_count DT_SYMENT (d :: l) <= 1)%nat ->
  (tag_count DT_HASH (d :: l) <= 1)%nat ->
  (tag_count DT_STRTAB (d :: l) <= 1)%nat ->
  symtab_params_from host mem (snd (gum_store_symtab_params host mem d ctx)) l =
  symtab_params_from host mem ctx (d :: l).
Proof.
  rewrite !tag_count_cons.
  unfold gum_store_symtab_params, symtab_params_from.
  rewrite !first_with_tag_cons. cbn [snd].
  destruct (Z.eqb_spec (dyn_type d) DT_SYMTAB) as [E1 | E1];
    destruct (Z.eqb_spec (dyn_type d) DT_SYMENT) as [E2 | E2];
    destruct (Z.eqb_spec (dyn_type d) DT_HASH) as [E3 | E3];
    destruct (Z.eqb_spec (dyn_type d) DT_STRTAB) as [E4 | E4];
    try (exfalso; unfold DT_SYMTAB, DT_SYMENT, DT_HASH, DT_STRTAB in *; lia);
    intros H1 H2 H3 H4;
    cbn [pending entries entry_size entry_count symtab_strtab symtab_module].
  - rewrite (first_with_tag_absent DT_SYMTAB l) by lia. reflexivity.
  - rewrite (first_with_tag_absent DT_SYMENT l) by lia. reflexivity.
  - rewrite (first_with_tag_absent DT_HASH l) by lia. reflexivity.
  - rewrite (first_with_tag_absent DT_STRTAB l) by lia. reflexivity.
  - reflexivity.
Qed.

Lemma deliver_store_symtab_params (host : PointerSize) (mem : Memory)
  (l : list GumElfDynamicEntryDetails) (ctx : GumElfStoreSymtabParamsContext) :
  (tag_count DT_SYMTAB l <= 1)%nat ->
  (tag_count DT_SYMENT l <= 1)%nat ->
  (tag_count DT_HASH l <= 1)%nat ->
  (tag_count DT_STRTAB l <= 1)%nat ->
  pending ctx = Z.of_nat (List.length (filter is_symtab_param l)) ->
  deliver (gum_store_symtab_params host mem) l ctx = symtab_params_from host mem ctx l.
Proof.
  revert ctx. induction l as [| d l IH]; intros ctx H1 H2 H3 H4 Hpending.
  - unfold symtab_params_from, first_with_tag. simpl in *.
    destruct ctx; simpl in *. subst. reflexivity.
  - rewrite <- symtab_params_from_cons by assumption.
    assert (Hless : forall tag, (tag_count tag l <= tag_count tag (d :: l))%nat)
      by (intros tag; rewrite tag_count_cons; lia).
    pose proof (Hless DT_SYMTAB). pose proof (Hless DT_SYMENT).
    pose proof (Hless DT_HASH). pose proof (Hless DT_STRTAB).
    pose proof (symtab_param_count l) as Htotal.
    cbn [deliver]. cbn [filter] in Hpending.
    destruct (store_symtab_params_pending host mem d ctx) as [Hnext Hverdict].
    destruct (gum_store_symtab_params host mem d ctx) as [carry_on ctx'].
    cbn [fst snd] in *.
    assert (Hctx' : pending ctx' = Z.of_nat (List.length (filter is_symtab_param l))).
    { rewrite Hnext. destruct (is_symtab_param d); cbn [List.length] in *.
      - rewrite to_guint32_small by lia. lia.
      - exact Hpending. }
    assert (Hrest : deliver (gum_store_symtab_params host mem) l ctx'
                    = symtab_params_from host mem ctx' l).
    { apply IH; lia. }
    destruct carry_on; [ exact Hrest | ].
    symmetry in Hverdict. apply negb_false_iff, Z.eqb_eq in Hverdict.
    rewrite <- Hrest. symmetry.
    apply deliver_store_symtab_params_done; [ exact Hverdict | lia ].
Qed.

(** X12.  When the dynamic section carries each of DT_SYMTAB, DT_SYMENT,
    DT_HASH and DT_STRTAB exactly once, in whatever order, a callback
    that never stops receives the symbols at indices 1 to nchain - 1 of
    the table (nchain being the second word of the hash table), each
    decoded with the captured table pointer, entry size and string
    table; the entry at index 0 is not delivered. *)
Theorem dynamic_symbols_walk (host : PointerSize) (mem : Memory) (self : GumElfModule) :
  let table := dynamic_entries host mem self in
  tag_count DT_SYMTAB table = 1%nat ->
  tag_count DT_SYMENT table = 1%nat ->
  tag_count DT_HASH table = 1%nat ->
  tag_count DT_STRTAB table = 1%nat ->
  let ctx := symtab_params_from host mem (symtab_params_init self) table in
  dynamic_symbols host mem self =
    map (read_Sym host mem self ctx) (indices (Z.to_nat (entry_count ctx - 1)) 1) /\
  List.length (dynamic_symbols host mem self) = Z.to_nat (entry_count ctx - 1).
Proof.
  intros table H1 H2 H3 H4 ctx.
  assert (Htable : dynamic_symbols host mem self =
            map (read_Sym host mem self ctx) (indices (Z.to_nat (entry_count ctx - 1)) 1)).
  { unfold dynamic_symbols, gum_elf_module_enumerate_dynamic_symbols.
    pose proof (symtab_entry_count_range host mem self) as Hcount.
    rewrite enumerate_dynamic_entries_deliver in Hcount |- *. fold table in Hcount |- *.
    rewrite deliver_store_symtab_params in Hcount |- *;
      try lia; try (rewrite symtab_param_count; simpl pending; lia).
    fold ctx in Hcount |- *.
    change (pending ctx) with 0. cbn [Z.eqb negb].
    rewrite enumerate_from_deliver
      by (intros i Hi; apply to_gsize_small; lia).
    rewrite deliver_keep_going. unfold read_Sym. destruct host; reflexivity. }
  split; [ exact Htable | ].
  rewrite Htable, length_map, indices_length. reflexivity.
Qed.

Lemma dynamic_symbols_walk_witness :
  tag_count DT_SYMTAB (dynamic_entries Ptr64 Fixture.libgum_mem Fixture.libgum) = 1%nat /\
  tag_count DT_SYMENT (dynamic_entries Ptr64 Fixture.libgum_mem Fixture.libgum) = 1%nat /\
  tag_count DT_HASH (dynamic_entries Ptr64 Fixture.libgum_mem Fixture.libgum) = 1%nat /\
  tag_count DT_STRTAB (dynamic_entries Ptr64 Fixture.libgum_mem Fixture.libgum) = 1%nat /\
  dynamic_symbols Ptr64 Fixture.libgum_mem Fixture.libgum
    = [Fixture.malloc_symbol; Fixture.gum_init_symbol; Fixture.helper_symbol].
Proof.
  assert (H1 : tag_count DT_SYMTAB
                 (dynamic_entries Ptr64 Fixture.libgum_mem Fixture.libgum) = 1%nat)
    by (vm_compute; reflexivity).
  assert (H2 : tag_count DT_SYMENT
                 (dynamic_entries Ptr64 Fixture.libgum_mem Fixture.libgum) = 1%nat)
    by (vm_compute; reflexivity).
  assert (H3 : tag_count DT_HASH
                 (dynamic_entries Ptr64 Fixture.libgum_mem Fixture.libgum) = 1%nat)
    by (vm_compute; reflexivity).
  assert (H4 : tag_count DT_STRTAB
                 (dynamic_entries Ptr64 Fixture.libgum_mem Fixture.libgum) = 1%nat)
    by (vm_compute; reflexivity).
  repeat (split; [ assumption | ]).
  rewrite (proj1 (dynamic_symbols_walk Ptr64 Fixture.libgum_mem Fixture.libgum
                    H1 H2 H3 H4)).
  vm_compute. reflexivity.
Defined.

(** ** What the dynamic symbol records can hold *)

Lemma dynamic_symbols_decoded (host : PointerSize) (mem : Memory)
  (self : GumElfModule) (s : GumElfSymbolDetails) :
  In s (dynamic_symbols host mem self) ->
  exists ctx entry_index, s = read_Sym host mem self ctx entry_index.
Proof.
  unfold dynamic_symbols, gum_elf_module_enumerate_dynamic_symbols.
  pose proof (symtab_entry_count_range host mem self) as Hcount.
  set (ctx := gum_elf_module_enumerate_dynamic_entries host mem self
                (gum_store_symtab_params host mem) (symtab_params_init self)) in *.
  destruct (negb (pending ctx =? 0)); [ intros [] | ].
  rewrite enumerate_from_deliver by (intros i Hi; apply to_gsize_small; lia).
  rewrite deliver_keep_going. simpl app. intros Hin.
  apply in_map_iff in Hin. destruct Hin as (k & <- & _).
  exists ctx, k. unfold read_Sym. destruct host; reflexivity.
Qed.

Lemma GELF_ST_TYPE_range (v : Z) : 0 <= GELF_ST_TYPE v < 16.
Proof.
  unfold GELF_ST_TYPE. change 0xf with (Z.ones 4).
  rewrite Z.land_ones by lia. apply Z.mod_pos_bound. lia.
Qed.

Lemma GELF_ST_BIND_range (v : Z) : 0 <= GELF_ST_BIND v < 16.
Proof.
  unfold GELF_ST_BIND, to_guchar. rewrite Z.shiftr_div_pow2 by lia.
  pose proof (Z.mod_pos_bound v (2 ^ 8) ltac:(lia)) as Hbyte.
  split.
  - apply Z.div_pos; lia.
  - apply Z.div_lt_upper_bound; lia.
Qed.

Lemma to_gsize_range (host : PointerSize) (x : Z) :
  0 <= to_gsize host x < 2 ^ (8 * sizeof_gpointer host).
Proof. unfold to_gsize. apply Z.mod_pos_bound. destruct host; simpl; lia. Qed.

(** X13.  Every record the dynamic-symbol enumerator delivers has a type and
    a binding below 16 (the two halves of [st_info]), a section index
    below 2^16, a 64-bit address and a name pointer that fits the host's
    pointer width. *)
Theorem dynamic_symbol_fields_bounded (host : PointerSize) (mem : Memory)
  (self : GumElfModule) (s : GumElfSymbolDetails) :
  In s (dynamic_symbols host mem self) ->
  0 <= sym_type s < 16 /\
  0 <= sym_bind s < 16 /\
  0 <= section_header_index s < 2 ^ 16 /\
  is_guint64 (sym_address s) /\
  0 <= sym_name s < 2 ^ (8 * sizeof_gpointer host).
Proof.
  intros Hin. destruct (dynamic_symbols_decoded host mem self s Hin) as (ctx & k & ->).
  unfold read_Sym, read_Elf32_Sym, read_Elf64_Sym, symbol_details.
  destruct host; cbn [sym_type sym_bind section_header_index sym_address sym_name];
    (split; [ apply GELF_ST_TYPE_range | ]);
    (split; [ apply GELF_ST_BIND_range | ]);
    (split; [ apply load_u16_range | ]);
    (split; [ | apply to_gsize_range ]);
    unfold is_guint64, gum_elf_module_resolve_virtual_address, to_guint64;
    apply Z.mod_pos_bound; lia.
Qed.

Lemma dynamic_symbol_fields_bounded_witness :
  In Fixture.helper_symbol (dynamic_symbols Ptr64 Fixture.libgum_mem Fixture.libgum) /\
  0 <= sym_type Fixture.helper_symbol < 16 /\
  0 <= sym_bind Fixture.helper_symbol < 16.
Proof.
  assert (Hin : In Fixture.helper_symbol
                  (dynamic_symbols Ptr64 Fixture.libgum_mem Fixture.libgum)).
  { vm_compute. right. right. left. reflexivity. }
  destruct (dynamic_symbol_fields_bounded Ptr64 Fixture.libgum_mem Fixture.libgum
              Fixture.helper_symbol Hin) as (Htype & Hbind & _).
  split; [ exact Hin | split; assumption ].
Defined.

(** ** Nothing but exports is delivered as an export *)

(** X14.  Whatever the callback does, every record the export enumeration
    hands it is the record of a dynamic symbol that is defined, of
    function or object type and bound globally or weakly: it carries
    that symbol's name and resolved address, and it is marked as a
    function exactly when the symbol's type is STT_FUNC. *)
Theorem exports_sound {U : Type} (host : PointerSize) (mem : Memory)
  (self : GumElfModule) (func : GumExportDetails -> U -> bool * U) (u : U)
  (r : GumExportDetails) (verdict : bool) :
  In (r, verdict)
     (fst (gum_elf_module_enumerate_exports host mem self (recording func) ([], u))) ->
  exists s,
    In s (dynamic_symbols host mem self) /\ is_export s /\
    export_name r = sym_name s /\
    export_address r = sym_address s /\
    (export_type r = GUM_EXPORT_FUNCTION <-> sym_type s = STT_FUNC) /\
    (export_type r = GUM_EXPORT_VARIABLE <-> sym_type s = STT_OBJECT).
Proof.
  rewrite enumerate_exports_deliver, deliver_recording. simpl. intros Hin.
  apply logged_record_in_table in Hin.
  apply in_filtered_table in Hin. destruct Hin as (s & Hs & Hexport & ->).
  apply is_exportb_spec in Hexport.
  exists s.
  split; [ exact Hs | split; [ exact Hexport | ] ].
  split; [ reflexivity | split; [ reflexivity | ] ].
  destruct Hexport as (_ & Htype & _). unfold export_of. cbn [export_type].
  destruct (Z.eqb_spec (sym_type s) STT_FUNC) as [Hfunc | Hfunc]; split; split.
  - intros _. exact Hfunc.
  - reflexivity.
  - discriminate.
  - intros Hobj. rewrite Hobj in Hfunc. discriminate Hfunc.
  - discriminate.
  - contradiction.
  - intros _. destruct Htype as [Hf | Ho]; [ contradiction | exact Ho ].
  - reflexivity.
Qed.

Lemma exports_sound_witness :
  In (export_of Fixture.gum_init_symbol, true)
     (fst (gum_elf_module_enumerate_exports Ptr64 Fixture.libgum_mem Fixture.libgum
             (recording Fixture.count_on) ([], O))) /\
  exists s,
    In s (dynamic_symbols Ptr64 Fixture.libgum_mem Fixture.libgum) /\ is_export s /\
    sym_name s = Fixture.runtime_base + 0x2000 + 28.
Proof.
  assert (Hin : In (export_of Fixture.gum_init_symbol, true)
                  (fst (gum_elf_module_enumerate_exports Ptr64 Fixture.libgum_mem
                          Fixture.libgum (recording Fixture.count_on) ([], O)))).
  { vm_compute. left. reflexivity. }
  split; [ exact Hin | ].
  destruct (exports_sound Ptr64 Fixture.libgum_mem Fixture.libgum Fixture.count_on O
              _ _ Hin) as (s & Hs & Hexport & Hname & _).
  exists s. split; [ exact Hs | split; [ exact Hexport | ] ].
  symmetry. exact Hname.
Defined.

(** ** A missing parameter, on a dynamic section without repeated tags *)

Lemma dynamic_symbols_need_all_four_witness :
  tag_count DT_STRTAB (dynamic_entries Ptr64 Fixture.nostrtab_mem Fixture.nostrtab) = O /\
  gum_elf_module_enumerate_dynamic_symbols Ptr64 Fixture.nostrtab_mem Fixture.nostrtab
    (recording Fixture.count_on) ([], O) = ([], O).
Proof.
  assert (Hmissing : tag_count DT_STRTAB
            (dynamic_entries Ptr64 Fixture.nostrtab_mem Fixture.nostrtab) = O)
    by (vm_compute; reflexivity).
  split; [ exact Hmissing | ].
  apply (dynamic_symbols_need_all_four Ptr64 Fixture.nostrtab_mem Fixture.nostrtab
           Fixture.count_on O DT_STRTAB).
  - vm_compute. apply le_n.
  - vm_compute. apply le_n.
  - vm_compute. apply le_n.
  - vm_compute. apply le_0_n.
  - right. right. right. left. reflexivity.
  - exact Hmissing.
Defined.
